(** * ClueFS directory nodes (dir.go): a shallow embedding

    The Go package is modelled function by function.  Library code that
    dir.go calls (strings, path/filepath, syscall, os, bazil.org/fuse) is
    modelled in one module per Go package; the code of package main follows
    at top level, in the order of dir.go. *)

From Stdlib Require Import String Ascii List ZArith Bool Arith Lia.
Import ListNotations.
Local Open Scope string_scope.
Local Open Scope list_scope.

(** ** Results of Go calls: a normal return or a run-time panic *)

Inductive Outcome (A : Type) : Type :=
| Returned (a : A)
| Panicked (msg : string).
Arguments Returned {A} a.
Arguments Panicked {A} msg.

(** ** Package strings *)

Module strings.

(** [s[n:]] *)
Fixpoint from (n : nat) (s : string) : string :=
  match n, s with
  | O, _ => s
  | S _, EmptyString => EmptyString
  | S n', String _ s' => from n' s'
  end.

(** [s[:n]] *)
Fixpoint upto (n : nat) (s : string) : string :=
  match n, s with
  | O, _ => EmptyString
  | S _, EmptyString => EmptyString
  | S n', String c s' => String c (upto n' s')
  end.

(** [strings.HasPrefix(s, prefix)] *)
Fixpoint HasPrefix (s prefix : string) : bool :=
  match prefix, s with
  | EmptyString, _ => true
  | String _ _, EmptyString => false
  | String p prefix', String c s' => Ascii.eqb c p && HasPrefix s' prefix'
  end.

(** [strings.Index(s, substr)]: the byte offset of the first occurrence,
    [None] standing for Go's -1. *)
Fixpoint Index (s substr : string) : option nat :=
  if HasPrefix s substr then Some O
  else match s with
       | EmptyString => None
       | String _ s' => option_map S (Index s' substr)
       end.

(** [strings.Replace(s, old, new, 1)], the only way dir.go calls Replace.
    With n = 1 the loop of Replace runs at most once: nothing happens when
    old == new or when old does not occur (Count is 0); otherwise the first
    occurrence (offset 0 when old is empty) is cut out and new is put in
    its place. *)
Definition Replace1 (s old new : string) : string :=
  if String.eqb old new then s
  else match Index s old with
       | None => s
       | Some j => upto j s ++ new ++ from (j + String.length old) s
       end.

(** [strings.Join(elems, sep)] *)
Fixpoint Join (elems : list string) (sep : string) : string :=
  match elems with
  | [] => EmptyString
  | [e] => e
  | e :: rest => e ++ sep ++ Join rest sep
  end.

End strings.

(** ** Package path/filepath (Unix) *)

Module filepath.

(** [filepath.IsAbs]: on Unix, the path starts with the separator. *)
Definition IsAbs (path : string) : bool := strings.HasPrefix path "/".

(** The elements of a path between separators (empty ones included). *)
Fixpoint elements (path : string) : list string :=
  match path with
  | EmptyString => [EmptyString]
  | String c rest =>
      if Ascii.eqb c "/"%char then EmptyString :: elements rest
      else match elements rest with
           | [] => [String c EmptyString]
           | e :: es => String c e :: es
           end
  end.

(** One step of Clean over the elements kept so far (most recent first):
    empty and "." elements are dropped, ".." removes the element before it,
    is dropped at the root, and is kept at the start of a relative path. *)
Definition cleanStep (rooted : bool) (kept : list string) (e : string)
  : list string :=
  if String.eqb e "" then kept
  else if String.eqb e "." then kept
  else if String.eqb e ".." then
    match kept with
    | top :: below => if String.eqb top ".." then e :: kept else below
    | [] => if rooted then [] else [e]
    end
  else e :: kept.

(** [filepath.Clean]: the shortest path equivalent to [path] by purely
    lexical processing. *)
Definition Clean (path : string) : string :=
  let rooted := IsAbs path in
  let out :=
    strings.Join (rev (fold_left (cleanStep rooted) (elements path) [])) "/" in
  if rooted then "/" ++ out
  else if String.eqb out "" then "." else out.

(** [filepath.Join(elem...)]: empty leading elements are ignored, the rest
    is joined with the separator and cleaned; all empty gives "". *)
Fixpoint Join (elem : list string) : string :=
  match elem with
  | [] => ""
  | e :: rest =>
      if String.eqb e "" then Join rest
      else Clean (strings.Join elem "/")
  end.

End filepath.

(** ** Package syscall *)

Module syscall.

(** [syscall.Errno] is a uintptr. *)
Definition Errno := Z.

Definition ENOENT : Errno := 2%Z.
Definition EIO : Errno := 5%Z.
Definition EEXIST : Errno := 17%Z.
(** ENOTSUP is 0x5f on Linux, 0x2d on Darwin and FreeBSD. *)
Definition ENOTSUP (GOOS : string) : Errno :=
  if String.eqb GOOS "linux" then 95%Z else 45%Z.

Definition S_IFMT : Z := 61440%Z.
Definition S_IFDIR : Z := 16384%Z.

(** The fields of [syscall.Stat_t] that the directory code reads. *)
Record Stat_t := { Ino : Z; Mode : Z; Size : Z }.

End syscall.

(** ** Go error values

    What an [error] interface holds: nil, or a value of some dynamic type.
    The dynamic types that dir.go tells apart are listed; a pointer type can
    hold a nil pointer; every other type is [OtherError]. *)

Inductive error : Type :=
| nil_error                                  (* err == nil *)
| PathErrorPtr (p : option PathError)        (* *os.PathError *)
| LinkErrorPtr (p : option LinkError)        (* *os.LinkError *)
| ErrnoValue (e : syscall.Errno)             (* syscall.Errno *)
| ErrnoPtr (p : option syscall.Errno)        (* *syscall.Errno *)
| FuseErrno (e : syscall.Errno)              (* fuse.Errno *)
| OtherError (msg : string)                  (* e.g. *errors.errorString *)
with PathError : Type :=
| mkPathError (Op Path : string) (Err : error)
with LinkError : Type :=
| mkLinkError (Op Old New : string) (Err : error).

Definition PathError_Err (p : PathError) : error :=
  match p with mkPathError _ _ e => e end.

Definition LinkError_Err (l : LinkError) : error :=
  match l with mkLinkError _ _ _ e => e end.

Definition is_nil (err : error) : bool :=
  match err with nil_error => true | _ => false end.

(** [p.f] through a pointer: a nil pointer panics. *)
Definition deref {A : Type} (p : option A) : Outcome A :=
  match p with
  | Some a => Returned a
  | None => Panicked "invalid memory address or nil pointer dereference"
  end.

(** [v, ok := err.( *os.PathError)] *)
Definition as_PathErrorPtr (err : error) : option (option PathError) :=
  match err with PathErrorPtr p => Some p | _ => None end.

(** [v, ok := err.( *os.LinkError)] *)
Definition as_LinkErrorPtr (err : error) : option (option LinkError) :=
  match err with LinkErrorPtr p => Some p | _ => None end.

(** [v, ok := err.( *syscall.Errno)] *)
Definition as_ErrnoPtr (err : error) : option (option syscall.Errno) :=
  match err with ErrnoPtr p => Some p | _ => None end.

(** [err.(syscall.Errno)], the one-result form: panics unless the dynamic
    type is exactly syscall.Errno. *)
Definition must_Errno (err : error) : Outcome syscall.Errno :=
  match err with
  | ErrnoValue e => Returned e
  | _ => Panicked "interface conversion: error is not syscall.Errno"
  end.

Definition bindO {A B : Type} (o : Outcome A) (k : A -> Outcome B) : Outcome B :=
  match o with
  | Returned a => k a
  | Panicked msg => Panicked msg
  end.

(** ** Package bazil.org/fuse *)

Module fuse.

Definition ENOENT : error := FuseErrno syscall.ENOENT.
Definition EIO : error := FuseErrno syscall.EIO.
Definition ENOTSUP (GOOS : string) : error := FuseErrno (syscall.ENOTSUP GOOS).

(** [fuse.ReleaseFlush] *)
Definition ReleaseFlush : Z := 1%Z.

(** [fuse.Header]: the caller's identity. *)
Record Header := { Uid : Z; Gid : Z; Pid : Z }.

Inductive DirentType : Type :=
| DT_Unknown | DT_Socket | DT_Link | DT_File | DT_Block | DT_Dir | DT_Char
| DT_FIFO.

Record Dirent := { Inode : Z; Type_ : DirentType; Name : string }.

(** [de.Name = n] on a struct value *)
Definition set_Name (de : Dirent) (n : string) : Dirent :=
  {| Inode := Inode de; Type_ := Type_ de; Name := n |}.

Record LookupRequest := { lk_Header : Header; lk_Name : string }.
Record OpenRequest := { op_Header : Header; op_Flags : Z }.
Record ReleaseRequest := { rl_Header : Header; rl_ReleaseFlags : Z }.
Record MkdirRequest := { mk_Header : Header; mk_Name : string; mk_Mode : Z }.
Record RemoveRequest := { rm_Header : Header; rm_Name : string }.
Record CreateRequest :=
  { cr_Header : Header; cr_Name : string; cr_Flags : Z; cr_Mode : Z }.
Record SymlinkRequest :=
  { sl_Header : Header; sl_NewName : string; sl_Target : string }.

End fuse.

(** ** dir.go: osErrorToFuseError

    The if / else-if chain of the source, with the unchecked type assertions
    [patherr.Err.(syscall.Errno)], [linkerr.Err.(syscall.Errno)] and
    [err.(syscall.Errno)] as [must_Errno]. *)

Definition osErrorToFuseError (err : error) : Outcome error :=
  if is_nil err then Returned nil_error
  else
    let errno := syscall.EIO in
    bindO
      (match as_PathErrorPtr err with
       | Some patherr =>
           bindO (deref patherr) (fun pe => must_Errno (PathError_Err pe))
       | None =>
           match as_LinkErrorPtr err with
           | Some linkerr =>
               bindO (deref linkerr) (fun le => must_Errno (LinkError_Err le))
           | None =>
               match as_ErrnoPtr err with
               | Some _ => must_Errno err
               | None => Returned errno
               end
           end
       end)
      (fun errno => Returned (FuseErrno errno)).

(** ** Package os *)

Module os.

(** [os.FileMode]: permission bits below, type bits above. *)
Definition FileMode := Z.
Definition ModePerm : FileMode := 511%Z.
Definition ModeDir : FileMode := 2147483648%Z.

(** [m.Perm()] *)
Definition Perm (m : FileMode) : FileMode := Z.land m ModePerm.

(** [m.IsDir()] *)
Definition IsDir (m : FileMode) : bool := negb (Z.land m ModeDir =? 0)%Z.

(** [*os.File]: an open descriptor on the backing filesystem. *)
Record File := { Fd : Z; Name : string }.

End os.

(** ** The backing filesystem

    What the operating system answers is not decided by dir.go: every call
    into it is a transition of an abstract kernel state [K] that returns
    what Go's os and syscall packages hand back.  A pointer result is an
    [option] (nil is [None]); an [error] result is nil on success. *)

Record Backing (K : Type) : Type := {
  (* lstat(2), behind syscall.Lstat and os.Lstat *)
  k_lstat : K -> string -> K * (syscall.Stat_t + syscall.Errno);
  (* os.Mkdir(path, perm) *)
  k_mkdir : K -> string -> os.FileMode -> K * error;
  (* os.Remove(path) *)
  k_remove : K -> string -> K * error;
  (* os.OpenFile(path, flags, perm) *)
  k_openfile : K -> string -> Z -> os.FileMode -> K * (option os.File * error);
  (* os.Symlink(oldname, newname) *)
  k_symlink : K -> string -> string -> K * error;
  (* the whole directory as getdents(2) lists it, and the read error if any *)
  k_getdents : K -> os.File -> K * (list string * error);
  (* f.Sync() *)
  k_sync : K -> os.File -> K * error;
  (* f.Close() *)
  k_close : K -> os.File -> K * error
}.
Arguments k_lstat {K}.
Arguments k_mkdir {K}.
Arguments k_remove {K}.
Arguments k_openfile {K}.
Arguments k_symlink {K}.
Arguments k_getdents {K}.
Arguments k_sync {K}.
Arguments k_close {K}.

(** ** Package main: the types of the other files

    dir.go uses the types ClueFS, Node, Handle, ProcessInfo and File, the
    trace records and a few helpers that live in the other files of the
    package. *)

(** Modelled from the spec: the type ClueFS (MountContext) is declared
    outside dir.go; it holds the mount root and the shadow root. *)
Record ClueFS := { mountDir : string; shadowDir : string }.

(** Modelled from the spec: the type Node is declared outside dir.go. *)
Record Node := { parent : string; name : string; path : string; fs : ClueFS }.

(** Modelled from the spec: NewNode is defined outside dir.go; a Node's
    path is always join(parentPath, name). *)
Definition NewNode (parent name : string) (fs : ClueFS) : Node :=
  {| parent := parent; name := name;
     path := filepath.Join [parent; name]; fs := fs |}.

(** Modelled from the spec: the type Handle is declared outside dir.go; it
    wraps the backing descriptor ([file], nil while closed) and the handle
    identifier. *)
Record Handle := { file : option os.File; handleID : Z }.

(** [&Handle{}] *)
Definition emptyHandle : Handle := {| file := None; handleID := 0%Z |}.

(** Modelled from the spec: isOpen is defined outside dir.go; a Handle is
    open while it holds a backing descriptor. *)
Definition isOpen (h : Handle) : bool :=
  match file h with Some _ => true | None => false end.

Record ProcessInfo := { Uid : Z; Gid : Z; Pid : Z }.

Definition noProcessInfo : ProcessInfo := {| Uid := 0%Z; Gid := 0%Z; Pid := 0%Z |}.

Record Dir := { Dir_Node : Node; Dir_Handle : Handle; Dir_ProcessInfo : ProcessInfo }.

(** Modelled from the spec: the type File (the sibling of Dir) is declared
    outside dir.go; it shares Node and Handle. *)
Record File := { File_Node : Node; File_Handle : Handle }.

(** [fusefs.Node] as dir.go fills it. *)
Inductive FsNode : Type :=
| DirNode (d : Dir)
| FileNode (f : File).

(** Modelled from the spec: the translated stat structure of
    statToFuseAttr, which is defined outside dir.go. *)
Record Attr := { Attr_Inode : Z; Attr_Mode : os.FileMode; Attr_Size : Z }.

Record LookupResponse :=
  { lr_Node : Z; lr_Attr : Attr; lr_AttrValid : Z; lr_EntryValid : Z }.

Record OpenResponse := { or_Handle : Z }.

(** [time.Second] and [time.Millisecond], in nanoseconds. *)
Definition Second : Z := 1000000000%Z.
Definition Millisecond : Z := 1000000%Z.

(** Modelled from the spec: the trace records are built by constructors
    defined outside dir.go; a record keeps the operation kind and the
    values it was built from. *)
Inductive FsOperation : Type :=
| NewOpenOp (req : fuse.OpenRequest) (path : string)
| NewReleaseOp (req : fuse.ReleaseRequest) (path : string)
| NewLookupOp (req : fuse.LookupRequest) (path : string) (isDir : bool)
| NewReadDirOp (path : string) (pi : ProcessInfo)
| NewMkdirOp (req : fuse.MkdirRequest) (path : string) (mode : os.FileMode)
| NewRemoveOp (req : fuse.RemoveRequest) (path : string)
| NewCreateOp (req : fuse.CreateRequest) (path : string)
| NewSymlinkOp (req : fuse.SymlinkRequest) (absNewName target : string)
    (targetIsDir : bool).

(** ** What a run leaves behind: calls into the backing filesystem and
    trace records, in the order they happen *)

Inductive Event : Type :=
| Traced (op : FsOperation)
| CallLstat (path : string)
| CallMkdir (path : string) (perm : os.FileMode)
| CallRemove (path : string)
| CallOpenFile (path : string) (flags : Z) (perm : os.FileMode)
| CallSymlink (oldname newname : string)
| CallReaddirnames (f : os.File) (n : Z)
| CallSync (f : os.File)
| CallClose (f : os.File).

Record World (K : Type) : Type := { kernel : K; events : list Event }.
Arguments kernel {K}.
Arguments events {K}.

(** ** The monad of Go code: state, and panics that cut the rest short *)

Definition M (K A : Type) : Type := World K -> Outcome A * World K.

Definition ret {K A : Type} (a : A) : M K A := fun w => (Returned a, w).

Definition bind {K A B : Type} (m : M K A) (k : A -> M K B) : M K B :=
  fun w =>
    match m w with
    | (Returned a, w') => k a w'
    | (Panicked msg, w') => (Panicked msg, w')
    end.

Definition lift {K A : Type} (o : Outcome A) : M K A := fun w => (o, w).

Declare Scope go_scope.
Delimit Scope go_scope with go.
Notation "x <- m ;; k" := (bind m (fun x => k))
  (at level 61, m at next level, right associativity) : go_scope.
Notation "' pat <- m ;; k" := (bind m (fun x => match x with pat => k end))
  (at level 61, pat pattern, m at next level, right associativity) : go_scope.
Local Open Scope go_scope.

(** One call into the backing filesystem: it is recorded, then answered. *)
Definition call {K A : Type} (e : Event) (step : K -> K * A) : M K A :=
  fun w =>
    let (k', a) := step (kernel w) in
    (Returned a, {| kernel := k'; events := events w ++ [e] |}).

(** [defer f(args)]: the arguments are already evaluated; the call runs when
    the body is left, by a return or by a panic. *)
Definition defer {K A : Type} (deferred : M K unit) (body : M K A) : M K A :=
  fun w =>
    let (r, w1) := body w in
    match deferred w1 with
    | (Returned _, w2) => (r, w2)
    | (Panicked msg, w2) => (Panicked msg, w2)
    end.

(** Modelled from the spec: trace is defined outside dir.go; the
    TraceEmitter produces one structured record per call. *)
Definition trace {K : Type} (op : FsOperation) : M K unit :=
  fun w => (Returned tt, {| kernel := kernel w; events := events w ++ [Traced op] |}).

(** The trace records of a run, oldest first. *)
Fixpoint traces (evs : list Event) : list FsOperation :=
  match evs with
  | [] => []
  | Traced op :: rest => op :: traces rest
  | _ :: rest => traces rest
  end.

(** The descriptors closed during a run, oldest first. *)
Fixpoint closes (evs : list Event) : list os.File :=
  match evs with
  | [] => []
  | CallClose f :: rest => f :: closes rest
  | _ :: rest => closes rest
  end.

(** The links made during a run, as (target, name of the link), oldest
    first. *)
Fixpoint symlinks (evs : list Event) : list (string * string) :=
  match evs with
  | [] => []
  | CallSymlink oldname newname :: rest => (oldname, newname) :: symlinks rest
  | _ :: rest => symlinks rest
  end.

(** Go embeds *Node and *Handle in Dir (and in File): [d.path], [d.file]. *)
Coercion Dir_Node : Dir >-> Node.
Coercion Dir_Handle : Dir >-> Handle.

(** ** dir.go: the platform's name filter (func init) *)

Definition skipDirEntry (GOOS : string) : string -> bool :=
  if String.eqb GOOS "darwin"
  then (* On Darwin we skip all directory entries starting by '._' *)
    fun n => strings.HasPrefix n "._"
  else fun n => false.

(** The file type bits of a stat mode as an [os.FileMode], as Go's os
    package and statToFuseAttr translate them (directories only; the
    permission bits are kept). *)
Definition fileModeOfStat (st_mode : Z) : os.FileMode :=
  let perm := Z.land st_mode os.ModePerm in
  if (Z.land st_mode syscall.S_IFMT =? syscall.S_IFDIR)%Z
  then Z.lor perm os.ModeDir else perm.

(** Modelled from the spec: statToFuseAttr is defined outside dir.go; it
    translates the stat structure (inode, mode, size). *)
Definition statToFuseAttr (st : syscall.Stat_t) : Attr :=
  {| Attr_Inode := syscall.Ino st;
     Attr_Mode := fileModeOfStat (syscall.Mode st);
     Attr_Size := syscall.Size st |}.

(** [func NewDir] *)
Definition NewDir (parent name : string) (fs : ClueFS) : Dir :=
  {| Dir_Node := NewNode parent name fs;
     Dir_Handle := emptyHandle;
     Dir_ProcessInfo := noProcessInfo |}.

(** [func (d *Dir) SetProcessInfo] *)
Definition SetProcessInfo (d : Dir) (h : fuse.Header) : Dir :=
  {| Dir_Node := Dir_Node d;
     Dir_Handle := Dir_Handle d;
     Dir_ProcessInfo :=
       {| Uid := fuse.Uid h; Gid := fuse.Gid h; Pid := fuse.Pid h |} |}.

(** [d.Handle] after a method has changed it through the pointer *)
Definition withHandle (d : Dir) (h : Handle) : Dir :=
  {| Dir_Node := Dir_Node d; Dir_Handle := h;
     Dir_ProcessInfo := Dir_ProcessInfo d |}.

(** Modelled from the spec: NewFile is defined outside dir.go; a fresh
    File node with a closed Handle. *)
Definition NewFile (parent name : string) (fs : ClueFS) : File :=
  {| File_Node := NewNode parent name fs; File_Handle := emptyHandle |}.

(** Modelled from the spec: NewOpenFile is defined outside dir.go; a File
    node whose Handle already holds the descriptor that Create opened. *)
Definition NewOpenFile (parent name : string) (fs : ClueFS)
  (f : option os.File) : File :=
  {| File_Node := NewNode parent name fs;
     File_Handle :=
       {| file := f;
          handleID := match f with Some fl => os.Fd fl | None => 0%Z end |} |}.

Section Operations.

Context {K : Type} (bk : Backing K) (GOOS : string).

(** *** Calls of the os and syscall packages *)

Definition syscall_Lstat (p : string)
  : M K (syscall.Stat_t + syscall.Errno) :=
  call (CallLstat p) (fun k => k_lstat bk k p).

(** [os.Lstat]: the FileInfo (its mode) or a *PathError. *)
Definition os_Lstat (p : string) : M K (option os.FileMode * error) :=
  r <- call (CallLstat p) (fun k => k_lstat bk k p) ;;
  match r with
  | inl st => ret (Some (fileModeOfStat (syscall.Mode st)), nil_error)
  | inr e =>
      ret (None, PathErrorPtr (Some (mkPathError "lstat" p (ErrnoValue e))))
  end.

Definition os_Mkdir (p : string) (perm : os.FileMode) : M K error :=
  call (CallMkdir p perm) (fun k => k_mkdir bk k p perm).

Definition os_Remove (p : string) : M K error :=
  call (CallRemove p) (fun k => k_remove bk k p).

Definition os_OpenFile (p : string) (flags : Z) (perm : os.FileMode)
  : M K (option os.File * error) :=
  call (CallOpenFile p flags perm) (fun k => k_openfile bk k p flags perm).

Definition os_Symlink (oldname newname : string) : M K error :=
  call (CallSymlink oldname newname) (fun k => k_symlink bk k oldname newname).

(** [f.Readdirnames(n)] with n <= 0: all the names in one slice.  Go's os
    package drops the entries "." and ".." of the raw listing; a nil
    receiver gives os.ErrInvalid. *)
Definition Readdirnames (f : option os.File) (n : Z)
  : M K (list string * error) :=
  match f with
  | None => ret ([], OtherError "invalid argument")
  | Some fl =>
      '(raw, err) <- call (CallReaddirnames fl n) (fun k => k_getdents bk k fl) ;;
      ret (filter (fun e => negb (String.eqb e "." || String.eqb e "..")) raw,
           err)
  end.

(** *** Helpers of package main that are not in dir.go *)

(** Modelled from the spec: doOpen is defined outside dir.go; it opens the
    backing resource, stores the descriptor and a fresh handle identifier,
    and returns the translated failure otherwise. *)
Definition doOpen (h : Handle) (p : string) (flags : Z) (perm : os.FileMode)
  : M K (Handle * error) :=
  '(f, err) <- os_OpenFile p flags perm ;;
  if negb (is_nil err) then
    e <- lift (osErrorToFuseError err) ;;
    ret (h, e)
  else
    ret ({| file := f;
            handleID := match f with Some fl => os.Fd fl | None => 0%Z end |},
         nil_error).

(** Modelled from the spec: doSync is defined outside dir.go; it flushes
    the backing resource. *)
Definition doSync (h : Handle) : M K error :=
  match file h with
  | None => ret (OtherError "invalid argument")
  | Some fl =>
      err <- call (CallSync fl) (fun k => k_sync bk k fl) ;;
      lift (osErrorToFuseError err)
  end.

(** Modelled from the spec: doClose is defined outside dir.go; it closes
    the backing descriptor, leaves the Handle closed, and surfaces a close
    failure as the error result. *)
Definition doClose (h : Handle) : M K (Handle * error) :=
  match file h with
  | None => ret (h, OtherError "invalid argument")
  | Some fl =>
      err <- call (CallClose fl) (fun k => k_close bk k fl) ;;
      e <- lift (osErrorToFuseError err) ;;
      ret ({| file := None; handleID := handleID h |}, e)
  end.

(** The directory-entry type of a stat mode. *)
Definition direntType (st_mode : Z) : fuse.DirentType :=
  let t := Z.land st_mode syscall.S_IFMT in
  if (t =? syscall.S_IFDIR)%Z then fuse.DT_Dir
  else if (t =? 32768)%Z then fuse.DT_File
  else if (t =? 40960)%Z then fuse.DT_Link
  else if (t =? 49152)%Z then fuse.DT_Socket
  else if (t =? 24576)%Z then fuse.DT_Block
  else if (t =? 8192)%Z then fuse.DT_Char
  else if (t =? 4096)%Z then fuse.DT_FIFO
  else fuse.DT_Unknown.

(** Modelled from the spec: getFuseDirent is defined outside dir.go; the
    Dirent {inode, name, kind} is derived from a stat of the path and
    carries the name it is given (no inode and an unknown kind when the
    stat fails). *)
Definition getFuseDirent (p : string) (n : string) : M K fuse.Dirent :=
  r <- syscall_Lstat p ;;
  match r with
  | inl st =>
      ret {| fuse.Inode := syscall.Ino st;
             fuse.Type_ := direntType (syscall.Mode st);
             fuse.Name := n |}
  | inr _ =>
      ret {| fuse.Inode := 0%Z; fuse.Type_ := fuse.DT_Unknown; fuse.Name := n |}
  end.

(** *** dir.go: the operations of Dir *)

(** [func (d *Dir) Open] *)
Definition Open (d : Dir) (req : fuse.OpenRequest) (resp : OpenResponse)
  : M K (OpenResponse * option Dir * error) :=
  defer (trace (NewOpenOp req (path d)))
    (let perm := os.Perm (fuse.op_Flags req) in
     let flags := fuse.op_Flags req in
     let newdir := NewDir (parent d) (name d) (fs d) in
     '(h, err) <- doOpen newdir (path d) flags perm ;;
     let newdir := withHandle newdir h in
     if negb (is_nil err) then ret (resp, None, err)
     else
       let newdir := SetProcessInfo newdir (fuse.op_Header req) in
       let resp := {| or_Handle := handleID newdir |} in
       ret (resp, Some newdir, nil_error)).

(** [func (d *Dir) Release]: the Dir comes back with its Handle as the
    call left it. *)
Definition Release (d : Dir) (req : fuse.ReleaseRequest) : M K (Dir * error) :=
  if negb (isOpen d) then ret (d, nil_error)
  else
    defer (trace (NewReleaseOp req (path d)))
      (_ <- (if negb (Z.land (fuse.rl_ReleaseFlags req) fuse.ReleaseFlush =? 0)%Z
             then (_ <- doSync d ;; ret tt)
             else ret tt) ;;
       '(h, err) <- doClose d ;;
       ret (withHandle d h, err)).

(** [func (d *Dir) Lookup] *)
Definition Lookup (d : Dir) (req : fuse.LookupRequest) (resp : LookupResponse)
  : M K (LookupResponse * option FsNode * error) :=
  if skipDirEntry GOOS (fuse.lk_Name req) then ret (resp, None, fuse.ENOENT)
  else
    let childPath := filepath.Join [path d; fuse.lk_Name req] in
    let isDir := false in
    defer (trace (NewLookupOp req childPath isDir))
      (r <- syscall_Lstat childPath ;;
       match r with
       | inr _ => ret (resp, None, fuse.ENOENT)
       | inl st =>
           let attr := statToFuseAttr st in
           let resp :=
             {| lr_Node := Attr_Inode attr; lr_Attr := attr;
                lr_AttrValid := (1 * Second)%Z;
                lr_EntryValid := (500 * Millisecond)%Z |} in
           let isDir := os.IsDir (Attr_Mode attr) in
           if isDir
           then ret (resp,
                     Some (DirNode (NewDir (path d) (fuse.lk_Name req) (fs d))),
                     nil_error)
           else ret (resp,
                     Some (FileNode (NewFile (path d) (fuse.lk_Name req) (fs d))),
                     nil_error)
       end).

(** The loop of ReadDirAll over the names of the directory. *)
Fixpoint readEntries (d : Dir) (names : list string)
  (result : list fuse.Dirent) : M K (list fuse.Dirent) :=
  match names with
  | [] => ret result
  | n :: rest =>
      if skipDirEntry GOOS n then readEntries d rest result
      else
        entry <- getFuseDirent (filepath.Join [path d; n]) n ;;
        readEntries d rest (result ++ [entry])
  end.

(** [func (d *Dir) ReadDirAll] *)
Definition ReadDirAll (d : Dir) : M K (list fuse.Dirent * error) :=
  if negb (isOpen d) then ret ([], fuse.ENOTSUP GOOS)
  else
    defer (trace (NewReadDirOp (path d) (Dir_ProcessInfo d)))
      ('(names, err) <- Readdirnames (file d) 0%Z ;;
       if negb (is_nil err) then ret ([], fuse.EIO)
       else
         result <- readEntries d names [] ;;
         (* Add '.' and '..' to the result *)
         dot <- getFuseDirent (path d) "." ;;
         dotdot <- (if (0 <? String.length (parent d))%nat
                    then getFuseDirent (parent d) ".."
                    else ret (fuse.set_Name dot "..")) ;;
         ret (result ++ [dot; dotdot], nil_error)).

(** [func (d *Dir) Mkdir] *)
Definition Mkdir (d : Dir) (req : fuse.MkdirRequest)
  : M K (option FsNode * error) :=
  let childPath := filepath.Join [path d; fuse.mk_Name req] in
  defer (trace (NewMkdirOp req childPath (fuse.mk_Mode req)))
    (err <- os_Mkdir childPath (fuse.mk_Mode req) ;;
     if negb (is_nil err) then
       e <- lift (osErrorToFuseError err) ;;
       ret (None, e)
     else
       ret (Some (DirNode (NewDir (path d) (fuse.mk_Name req) (fs d))),
            nil_error)).

(** [func (d *Dir) Remove] *)
Definition Remove (d : Dir) (req : fuse.RemoveRequest) : M K error :=
  let childPath := filepath.Join [path d; fuse.rm_Name req] in
  defer (trace (NewRemoveOp req childPath))
    (err <- os_Remove childPath ;;
     if negb (is_nil err) then lift (osErrorToFuseError err)
     else ret nil_error).

(** [func (d *Dir) Create]: the new File is returned both as the node and
    as the handle. *)
Definition Create (d : Dir) (req : fuse.CreateRequest)
  : M K (option File * option File * error) :=
  let childPath := filepath.Join [path d; fuse.cr_Name req] in
  defer (trace (NewCreateOp req childPath))
    ('(f, err) <- os_OpenFile childPath (fuse.cr_Flags req) (fuse.cr_Mode req) ;;
     if negb (is_nil err) then
       e <- lift (osErrorToFuseError err) ;;
       ret (None, None, e)
     else
       let newfile := NewOpenFile (path d) (fuse.cr_Name req) (fs d) f in
       ret (Some newfile, Some newfile, nil_error)).

(** The first half of Symlink: the absolute target and the target that the
    link will hold, (absTarget, linkTarget). *)
Definition symlinkTargets (d : Dir) (req : fuse.SymlinkRequest)
  : string * string :=
  let linkTarget := fuse.sl_Target req in
  let absTarget := linkTarget in
  let absTarget :=
    if negb (filepath.IsAbs (fuse.sl_Target req))
    then filepath.Join [path d; fuse.sl_Target req]
    else absTarget in
  if strings.HasPrefix absTarget (mountDir (fs d))
  then
    let absTarget :=
      strings.Replace1 absTarget (mountDir (fs d)) (shadowDir (fs d)) in
    (absTarget, absTarget)
  else (absTarget, linkTarget).

(** [func (d *Dir) Symlink] *)
Definition Symlink (d : Dir) (req : fuse.SymlinkRequest)
  : M K (option FsNode * error) :=
  let absNewName := filepath.Join [path d; fuse.sl_NewName req] in
  let targetIsDir := false in
  defer (trace (NewSymlinkOp req absNewName (fuse.sl_Target req) targetIsDir))
    (let '(absTarget, linkTarget) := symlinkTargets d req in
     (* Does the link target actually exist? *)
     '(info, err) <- os_Lstat absTarget ;;
     let targetIsDir :=
       if is_nil err
       then match info with Some m => os.IsDir m | None => targetIsDir end
       else targetIsDir in
     (* Create the symbolic link: absNewName --> linkTarget *)
     err <- os_Symlink linkTarget absNewName ;;
     if negb (is_nil err) then
       e <- lift (osErrorToFuseError err) ;;
       ret (None, e)
     else if targetIsDir
     then ret (Some (DirNode (NewDir (path d) (fuse.sl_NewName req) (fs d))),
               nil_error)
     else ret (Some (FileNode (NewFile (path d) (fuse.sl_NewName req) (fs d))),
               nil_error)).

End Operations.

(** ** Observations on runs *)

(** A computation is silent when it leaves the trace records as they are,
    whatever it returns and whether or not it panics. *)
Definition silent {K A : Type} (m : M K A) : Prop :=
  forall w, traces (events (snd (m w))) = traces (events w).

(** The names that the platform's filter lets through. *)
Definition shown (GOOS : string) (names : list string) : list string :=
  filter (fun n => negb (skipDirEntry GOOS n)) names.

(** ** A small backing filesystem to run the operations on

    The kernel state is a table from absolute paths to their stat
    structures.  It answers the calls the way a Unix does for the cases the
    examples below need. *)

Module demo.

Definition Disk := list (string * syscall.Stat_t).

Fixpoint find (k : Disk) (p : string) : option syscall.Stat_t :=
  match k with
  | [] => None
  | (q, st) :: rest => if String.eqb q p then Some st else find rest p
  end.

Definition delete (k : Disk) (p : string) : Disk :=
  filter (fun e => negb (String.eqb (fst e) p)) k.

Definition stat (ino mode : Z) : syscall.Stat_t :=
  {| syscall.Ino := ino; syscall.Mode := mode; syscall.Size := 0%Z |}.

(** The names directly below [dir]. *)
Fixpoint children (k : Disk) (dir : string) : list string :=
  match k with
  | [] => []
  | (q, _) :: rest =>
      if strings.HasPrefix q (dir ++ "/") then
        let base := strings.from (String.length dir + 1) q in
        match strings.Index base "/" with
        | None => base :: children rest dir
        | Some _ => children rest dir
        end
      else children rest dir
  end.

Definition pathError (op p : string) (e : syscall.Errno) : error :=
  PathErrorPtr (Some (mkPathError op p (ErrnoValue e))).

Definition backing : Backing Disk :=
  {| k_lstat := fun k p =>
       match find k p with
       | Some st => (k, inl st)
       | None => (k, inr syscall.ENOENT)
       end;
     k_mkdir := fun k p perm =>
       match find k p with
       | Some _ => (k, pathError "mkdir" p syscall.EEXIST)
       | None =>
           (k ++ [(p, stat (Z.of_nat (List.length k) + 100)
                            (Z.lor syscall.S_IFDIR (os.Perm perm)))],
            nil_error)
       end;
     k_remove := fun k p =>
       match find k p with
       | Some _ => (delete k p, nil_error)
       | None => (k, pathError "remove" p syscall.ENOENT)
       end;
     k_openfile := fun k p flags perm =>
       match find k p with
       | Some st =>
           (k, (Some {| os.Fd := syscall.Ino st; os.Name := p |}, nil_error))
       | None => (k, (None, pathError "open" p syscall.ENOENT))
       end;
     k_symlink := fun k oldname newname =>
       match find k newname with
       | Some _ =>
           (k, LinkErrorPtr
                 (Some (mkLinkError "symlink" oldname newname
                          (ErrnoValue syscall.EEXIST))))
       | None =>
           (k ++ [(newname, stat (Z.of_nat (List.length k) + 100) 41471%Z)],
            nil_error)
       end;
     k_getdents := fun k f =>
       (k, ("." :: ".." :: children k (os.Name f), nil_error));
     k_sync := fun k f => (k, nil_error);
     k_close := fun k f => (k, nil_error) |}.

(** mount root /mnt/x over the shadow root /data/x *)
Definition clue : ClueFS := {| mountDir := "/mnt/x"; shadowDir := "/data/x" |}.

Definition disk : Disk :=
  [ ("/data/x", stat 1 16877%Z);
    ("/data/x/a", stat 2 16877%Z);
    ("/data/x/a/f", stat 3 33188%Z);
    ("/data/x/a/._f", stat 4 33188%Z);
    ("/data/x/a/sub", stat 5 16877%Z);
    ("/data/x/a/sub/deep", stat 6 33188%Z);
    ("/data/x/b", stat 7 16877%Z);
    ("/data/x/b/file", stat 8 33188%Z) ].

Definition world : World Disk := {| kernel := disk; events := [] |}.

(** The root directory of the mount and the directory a below it. *)
Definition root : Dir := NewDir "" "/data/x" clue.
Definition dirA : Dir := NewDir "/data/x" "a" clue.

Definition header : fuse.Header :=
  {| fuse.Uid := 1000%Z; fuse.Gid := 1000%Z; fuse.Pid := 4242%Z |}.

Definition release : fuse.ReleaseRequest :=
  {| fuse.rl_Header := header; fuse.rl_ReleaseFlags := 1%Z |}.

Definition open : fuse.OpenRequest :=
  {| fuse.op_Header := header; fuse.op_Flags := 0%Z |}.

Definition symlink (newname target : string) : fuse.SymlinkRequest :=
  {| fuse.sl_Header := header; fuse.sl_NewName := newname;
     fuse.sl_Target := target |}.

(** [dirA] with the Handle that a successful Open leaves. *)
Definition openA : Dir :=
  withHandle dirA
    {| file := Some {| os.Fd := 2%Z; os.Name := "/data/x/a" |};
       handleID := 2%Z |}.

Definition openRoot : Dir :=
  withHandle root
    {| file := Some {| os.Fd := 1%Z; os.Name := "/data/x" |};
       handleID := 1%Z |}.

End demo.

(** ** The same filesystem with a directory that cannot be read

    Every enumeration hands back the names read so far and the error EIO;
    all other calls are answered as by [demo.backing]. *)

Module faulty.

Definition backing : Backing demo.Disk :=
  {| k_lstat := k_lstat demo.backing;
     k_mkdir := k_mkdir demo.backing;
     k_remove := k_remove demo.backing;
     k_openfile := k_openfile demo.backing;
     k_symlink := k_symlink demo.backing;
     k_getdents := fun k f =>
       (k, (["."; ".."; "f"], demo.pathError "readdirent" (os.Name f) syscall.EIO));
     k_sync := fun k f => (k, demo.pathError "sync" (os.Name f) syscall.EIO);
     k_close := k_close demo.backing |}.

End faulty.

(** * Properties *)

(** ** Library models on Go's own test vectors *)

(** Go's test vectors for Clean and Join. *)
Example Clean_vectors :
  map filepath.Clean
    [""; "abc"; "abc/def"; "."; ".."; "../.."; "../../abc"; "/abc"; "/";
     "abc/"; "./"; "../"; "/abc/"; "abc//def//ghi"; "//abc"; "///abc";
     "//abc//"; "abc//"; "abc/./def"; "/./abc/def"; "abc/.";
     "abc/def/ghi/../jkl"; "abc/def/../ghi/../jkl"; "abc/def/.."; "abc/def/../..";
     "/abc/def/../.."; "abc/def/../../.."; "/abc/def/../../..";
     "abc/def/../../../ghi/jkl/../../../mno"; "/../abc";
     "abc/./../def"; "abc//./../def"; "abc/../../././../def"]
  = ["."; "abc"; "abc/def"; "."; ".."; "../.."; "../../abc"; "/abc"; "/";
     "abc"; "."; ".."; "/abc"; "abc/def/ghi"; "/abc"; "/abc";
     "/abc"; "abc"; "abc/def"; "/abc/def"; "abc";
     "abc/def/jkl"; "abc/jkl"; "abc"; ".";
     "/"; ".."; "/";
     "../../mno"; "/abc";
     "def"; "def"; "../../def"].
Proof. vm_compute. reflexivity. Qed.

Example Join_vectors :
  map filepath.Join
    [[]; [""]; ["a"]; ["a"; "b"]; ["a"; ""]; [""; "b"]; ["/"; "a"];
     ["/"; ""]; ["a/"; "b"]; ["a/"; ""]; [""; ""]; ["/data/x/a"; "../b/f"]]
  = [""; ""; "a"; "a/b"; "a"; "b"; "/a"; "/"; "a/b"; "a"; ""; "/data/x/b/f"].
Proof. vm_compute. reflexivity. Qed.

Example Replace1_vectors :
  map (fun '(s, old, new) => strings.Replace1 s old new)
    [("hello", "l", "L"); ("hello", "x", "X"); ("", "x", "X");
     ("radar", "r", "<r>"); ("banana", "a", "<>"); ("banana", "an", "<>");
     ("banana", "", "<>"); ("", "", "<>"); ("abc", "abc", "abc")]
  = ["heLlo"; "hello"; ""; "<r>adar"; "b<>nana"; "b<>ana"; "<>banana"; "<>";
     "abc"].
Proof. vm_compute. reflexivity. Qed.

Example demo_Open_then_ReadDirAll :
  fst (bind (Open demo.backing demo.dirA demo.open {| or_Handle := 0%Z |})
         (fun '(_, nd, _) =>
            match nd with
            | Some d => ReadDirAll demo.backing "linux" d
            | None => ret ([], nil_error)
            end) demo.world)
  = Returned
      ([ {| fuse.Inode := 3; fuse.Type_ := fuse.DT_File; fuse.Name := "f" |};
         {| fuse.Inode := 4; fuse.Type_ := fuse.DT_File; fuse.Name := "._f" |};
         {| fuse.Inode := 5; fuse.Type_ := fuse.DT_Dir; fuse.Name := "sub" |};
         {| fuse.Inode := 2; fuse.Type_ := fuse.DT_Dir; fuse.Name := "." |};
         {| fuse.Inode := 1; fuse.Type_ := fuse.DT_Dir; fuse.Name := ".." |} ],
       nil_error).
Proof. vm_compute. reflexivity. Qed.

(** ** strings: a prefix is the first occurrence *)

Lemma HasPrefix_split (s p : string) :
  strings.HasPrefix s p = true -> s = (p ++ strings.from (String.length p) s)%string.
Proof.
  revert s. induction p as [|c p IH]; intros s H.
  - reflexivity.
  - destruct s as [|a s]; simpl in H; [discriminate|].
    apply andb_true_iff in H. destruct H as [Hc Hp].
    apply Ascii.eqb_eq in Hc. subst a.
    simpl. f_equal. now apply IH.
Qed.

Lemma HasPrefix_Index (s p : string) :
  strings.HasPrefix s p = true -> strings.Index s p = Some 0.
Proof.
  intros H. destruct s; cbn [strings.Index]; now rewrite H.
Qed.

Lemma upto_0 (s : string) : strings.upto 0 s = "".
Proof. now destruct s. Qed.

Lemma Replace1_prefix (s old new : string) :
  strings.HasPrefix s old = true ->
  strings.Replace1 s old new = (new ++ strings.from (String.length old) s)%string.
Proof.
  intros H. unfold strings.Replace1.
  destruct (String.eqb old new) eqn:E.
  - apply String.eqb_eq in E. subst new. now apply HasPrefix_split.
  - rewrite (HasPrefix_Index _ _ H), upto_0. reflexivity.
Qed.

(** ** The name filter never hides the dot entries *)

Lemma skipDirEntry_dot (GOOS : string) : skipDirEntry GOOS "." = false.
Proof. unfold skipDirEntry. now destruct (String.eqb GOOS "darwin"). Qed.

Lemma skipDirEntry_dotdot (GOOS : string) : skipDirEntry GOOS ".." = false.
Proof. unfold skipDirEntry. now destruct (String.eqb GOOS "darwin"). Qed.

(** ** osErrorToFuseError, case by case *)

Lemma osErrorToFuseError_nil : osErrorToFuseError nil_error = Returned nil_error.
Proof. reflexivity. Qed.

Lemma osErrorToFuseError_PathError (op p : string) (e : syscall.Errno) :
  osErrorToFuseError (PathErrorPtr (Some (mkPathError op p (ErrnoValue e))))
  = Returned (FuseErrno e).
Proof. reflexivity. Qed.

Lemma osErrorToFuseError_LinkError (op o n : string) (e : syscall.Errno) :
  osErrorToFuseError (LinkErrorPtr (Some (mkLinkError op o n (ErrnoValue e))))
  = Returned (FuseErrno e).
Proof. reflexivity. Qed.

Lemma osErrorToFuseError_other (msg : string) :
  osErrorToFuseError (OtherError msg) = Returned fuse.EIO.
Proof. reflexivity. Qed.

Lemma osErrorToFuseError_ErrnoPtr (p : option syscall.Errno) :
  exists msg, osErrorToFuseError (ErrnoPtr p) = Panicked msg.
Proof. eexists. reflexivity. Qed.

(** What the translator returns is nil or a fuse.Errno. *)
Lemma osErrorToFuseError_returns (err r : error) :
  osErrorToFuseError err = Returned r ->
  r = nil_error \/ exists e, r = FuseErrno e.
Proof.
  unfold osErrorToFuseError.
  destruct err as [|[[? ? inner]|]|[[? ? ? inner]|]|e|p|e|msg]; simpl;
    try destruct inner; simpl; intros H; inversion H; eauto.
Qed.

(** The unchecked assertions: a wrapped error that is anything but a
    syscall.Errno value makes the translator panic. *)
Lemma osErrorToFuseError_wrapped_panics (op p : string) (inner : error) :
  (forall e, inner <> ErrnoValue e) ->
  exists msg,
    osErrorToFuseError (PathErrorPtr (Some (mkPathError op p inner)))
    = Panicked msg.
Proof.
  intros Hne. unfold osErrorToFuseError. cbn.
  destruct inner; cbn; eauto. now destruct (Hne e).
Qed.

(** C2 (the code departs from the claim): a *os.PathError whose inner error
    is not a syscall.Errno, such as the one Close returns for a file that is
    already closed, makes the unchecked type assertion panic: no error code
    is returned. *)
Theorem osErrorToFuseError_panics_on_wrapped_non_errno :
  osErrorToFuseError
    (PathErrorPtr
       (Some (mkPathError "close" "/data/x/a/f" (OtherError "file already closed"))))
  = Panicked "interface conversion: error is not syscall.Errno".
Proof. reflexivity. Qed.

(** C3 (the code departs from the claim): a bare syscall.Errno is not
    unwrapped to the code it carries; the third test of the chain looks for
    a *syscall.Errno, so ENOENT comes out as EIO. *)
Theorem osErrorToFuseError_bare_errno_is_EIO :
  osErrorToFuseError (ErrnoValue syscall.ENOENT) = Returned fuse.EIO
  /\ fuse.EIO <> fuse.ENOENT.
Proof. split; [reflexivity | discriminate]. Qed.

(** ** Trace records of a run *)

Lemma traces_app (a b : list Event) : traces (a ++ b) = traces a ++ traces b.
Proof.
  induction a as [|e a IH]; [reflexivity|].
  destruct e; simpl; now rewrite IH.
Qed.

Section Silence.

Context {K : Type}.

Lemma silent_ret {A : Type} (a : A) : silent (@ret K A a).
Proof. intros w. reflexivity. Qed.

Lemma silent_lift {A : Type} (o : Outcome A) : silent (@lift K A o).
Proof. intros w. reflexivity. Qed.

Lemma silent_call {A : Type} (e : Event) (step : K -> K * A) :
  traces [e] = [] -> silent (call e step).
Proof.
  intros He w. unfold call. destruct (step (kernel w)) as [k' a]. simpl.
  rewrite traces_app, He. apply app_nil_r.
Qed.

Lemma silent_bind {A B : Type} (m : M K A) (k : A -> M K B) :
  silent m -> (forall a, silent (k a)) -> silent (bind m k).
Proof.
  intros Hm Hk w. unfold bind. specialize (Hm w).
  destruct (m w) as [[a|msg] w1]; simpl in *.
  - now rewrite Hk.
  - exact Hm.
Qed.

(** A deferred trace adds its record after a silent body, on every way
    out of the body. *)
Lemma defer_trace_once {A : Type} (op : FsOperation) (body : M K A) :
  silent body ->
  forall w, traces (events (snd (defer (trace op) body w)))
            = traces (events w) ++ [op].
Proof.
  intros Hb w. unfold defer, trace. specialize (Hb w).
  destruct (body w) as [r w1]. simpl in *.
  rewrite traces_app, Hb. reflexivity.
Qed.

(** A deferred call does not change what the body returns. *)
Lemma defer_trace_result {A : Type} (op : FsOperation) (body : M K A) w :
  fst (defer (trace op) body w) = fst (body w).
Proof. unfold defer, trace. now destruct (body w). Qed.

End Silence.

Ltac silence :=
  repeat first
    [ apply silent_ret
    | apply silent_lift
    | apply silent_call; reflexivity
    | apply silent_bind; [|intros]
    | progress cbv zeta
    | match goal with
      | |- silent (match ?x with _ => _ end) => destruct x
      | |- silent (let (_, _) := ?x in _) => destruct x
      end ].

Section Bodies.

Context {K : Type} (bk : Backing K) (GOOS : string).

Lemma silent_syscall_Lstat p : silent (syscall_Lstat bk p).
Proof. unfold syscall_Lstat. silence. Qed.

Lemma silent_os_Lstat p : silent (os_Lstat bk p).
Proof. unfold os_Lstat. silence. Qed.

Lemma silent_os_OpenFile p flags perm : silent (os_OpenFile bk p flags perm).
Proof. unfold os_OpenFile. silence. Qed.

Lemma silent_Readdirnames f n : silent (Readdirnames bk f n).
Proof. unfold Readdirnames. silence. Qed.

Lemma silent_doOpen h p flags perm : silent (doOpen bk h p flags perm).
Proof. unfold doOpen. silence; try apply silent_os_OpenFile. Qed.

Lemma silent_doSync h : silent (doSync bk h).
Proof. unfold doSync. silence. Qed.

Lemma silent_doClose h : silent (doClose bk h).
Proof. unfold doClose. silence. Qed.

Lemma silent_getFuseDirent p n : silent (getFuseDirent bk p n).
Proof. unfold getFuseDirent. silence; try apply silent_syscall_Lstat. Qed.

Lemma silent_readEntries d names :
  forall result, silent (readEntries bk GOOS d names result).
Proof.
  induction names as [|n names IH]; intros result; simpl.
  - apply silent_ret.
  - destruct (skipDirEntry GOOS n); [apply IH|].
    apply silent_bind; [apply silent_getFuseDirent | intros; apply IH].
Qed.

(** *** One record per operation that reaches its defer *)

Lemma Open_traces d req resp w :
  traces (events (snd (Open bk d req resp w)))
  = traces (events w) ++ [NewOpenOp req (path d)].
Proof.
  apply defer_trace_once. silence; try apply silent_doOpen.
Qed.

Lemma Release_traces d req w :
  traces (events (snd (Release bk d req w)))
  = traces (events w)
    ++ (if isOpen d then [NewReleaseOp req (path d)] else []).
Proof.
  unfold Release. destruct (isOpen d); simpl.
  - apply defer_trace_once. silence; try first [apply silent_doSync | apply silent_doClose].
  - now rewrite app_nil_r.
Qed.

Lemma Lookup_traces d req resp w :
  traces (events (snd (Lookup bk GOOS d req resp w)))
  = traces (events w)
    ++ (if skipDirEntry GOOS (fuse.lk_Name req) then []
        else [NewLookupOp req (filepath.Join [path d; fuse.lk_Name req]) false]).
Proof.
  unfold Lookup. destruct (skipDirEntry GOOS (fuse.lk_Name req)); simpl.
  - now rewrite app_nil_r.
  - apply defer_trace_once. silence; try apply silent_syscall_Lstat.
Qed.

Lemma ReadDirAll_traces d w :
  traces (events (snd (ReadDirAll bk GOOS d w)))
  = traces (events w)
    ++ (if isOpen d then [NewReadDirOp (path d) (Dir_ProcessInfo d)] else []).
Proof.
  unfold ReadDirAll. destruct (isOpen d); simpl.
  - apply defer_trace_once.
    apply silent_bind; [apply silent_Readdirnames|].
    intros [names err]. destruct (negb (is_nil err)); [apply silent_ret|].
    apply silent_bind; [apply silent_readEntries|]. intros result.
    apply silent_bind; [apply silent_getFuseDirent|]. intros dot.
    apply silent_bind; [|intros; apply silent_ret].
    destruct (0 <? String.length (parent d))%nat;
      [apply silent_getFuseDirent | apply silent_ret].
  - now rewrite app_nil_r.
Qed.

Lemma Mkdir_traces d req w :
  traces (events (snd (Mkdir bk d req w)))
  = traces (events w)
    ++ [NewMkdirOp req (filepath.Join [path d; fuse.mk_Name req])
          (fuse.mk_Mode req)].
Proof. apply defer_trace_once. unfold os_Mkdir. silence. Qed.

Lemma Remove_traces d req w :
  traces (events (snd (Remove bk d req w)))
  = traces (events w)
    ++ [NewRemoveOp req (filepath.Join [path d; fuse.rm_Name req])].
Proof. apply defer_trace_once. unfold os_Remove. silence. Qed.

Lemma Create_traces d req w :
  traces (events (snd (Create bk d req w)))
  = traces (events w)
    ++ [NewCreateOp req (filepath.Join [path d; fuse.cr_Name req])].
Proof. apply defer_trace_once. silence; try apply silent_os_OpenFile. Qed.

Lemma Symlink_traces d req w :
  traces (events (snd (Symlink bk d req w)))
  = traces (events w)
    ++ [NewSymlinkOp req (filepath.Join [path d; fuse.sl_NewName req])
          (fuse.sl_Target req) false].
Proof.
  apply defer_trace_once. destruct (symlinkTargets d req) as [a l].
  unfold os_Symlink. silence; try apply silent_os_Lstat.
Qed.

End Bodies.

(** ** The guards that come before the defer *)

Section Guards.

Context {K : Type} (bk : Backing K) (GOOS : string).

Lemma Release_closed (d : Dir) req w :
  isOpen d = false -> Release bk d req w = (Returned (d, nil_error), w).
Proof. intros H. unfold Release. now rewrite H. Qed.

Lemma ReadDirAll_closed (d : Dir) w :
  isOpen d = false ->
  ReadDirAll bk GOOS d w = (Returned ([], fuse.ENOTSUP GOOS), w).
Proof. intros H. unfold ReadDirAll. now rewrite H. Qed.

Lemma Lookup_skipped d req resp w :
  skipDirEntry GOOS (fuse.lk_Name req) = true ->
  Lookup bk GOOS d req resp w = (Returned (resp, None, fuse.ENOENT), w).
Proof. intros H. unfold Lookup. now rewrite H. Qed.

Lemma closes_app (a b : list Event) : closes (a ++ b) = closes a ++ closes b.
Proof.
  induction a as [|e a IH]; [reflexivity|].
  destruct e; simpl; now rewrite IH.
Qed.

(** A Release that returns leaves the Handle closed, and has closed the
    descriptor once if there was one. *)
Lemma Release_returns (d : Dir) req w (d1 : Dir) e1 w1 :
  Release bk d req w = (Returned (d1, e1), w1) ->
  isOpen d1 = false
  /\ closes (events w1)
     = closes (events w) ++ match file d with Some f => [f] | None => [] end.
Proof.
  unfold Release, isOpen. destruct (file d) as [f|] eqn:Hf; simpl.
  - cbv [defer trace bind doSync doClose call lift ret]. rewrite Hf.
    destruct (negb (Z.land (fuse.rl_ReleaseFlags req) fuse.ReleaseFlush =? 0)%Z).
    + destruct (k_sync bk (kernel w) f) as [k1 es].
      destruct (osErrorToFuseError es); [|intros H; inversion H].
      cbn [kernel events].
      destruct (k_close bk k1 f) as [k2 ec].
      destruct (osErrorToFuseError ec); intros H; inversion H; subst.
      cbn. split; [reflexivity|].
      rewrite !closes_app. cbn. now rewrite !app_nil_r.
    + destruct (k_close bk (kernel w) f) as [k2 ec].
      destruct (osErrorToFuseError ec); intros H; inversion H; subst.
      cbn. split; [reflexivity|].
      rewrite !closes_app. cbn. now rewrite !app_nil_r.
  - intros H; inversion H; subst. rewrite Hf.
    split; [reflexivity | now rewrite app_nil_r].
Qed.

End Guards.

(** C1 (amended): every invocation of Open, Mkdir, Remove, Create and
    Symlink adds exactly one trace record, whatever the backing filesystem
    answers and also when the call fails or panics; Release and ReadDirAll
    add exactly one record when the Handle is open and none when it is
    closed; Lookup adds exactly one record when the name is not suppressed
    and none when it is. *)
Theorem one_trace_record_past_the_guards
  {K : Type} (bk : Backing K) (GOOS : string) (d : Dir) (w : World K) :
  (forall req resp,
      traces (events (snd (Open bk d req resp w)))
      = traces (events w) ++ [NewOpenOp req (path d)])
  /\ (forall req,
      traces (events (snd (Mkdir bk d req w)))
      = traces (events w)
        ++ [NewMkdirOp req (filepath.Join [path d; fuse.mk_Name req])
              (fuse.mk_Mode req)])
  /\ (forall req,
      traces (events (snd (Remove bk d req w)))
      = traces (events w)
        ++ [NewRemoveOp req (filepath.Join [path d; fuse.rm_Name req])])
  /\ (forall req,
      traces (events (snd (Create bk d req w)))
      = traces (events w)
        ++ [NewCreateOp req (filepath.Join [path d; fuse.cr_Name req])])
  /\ (forall req,
      traces (events (snd (Symlink bk d req w)))
      = traces (events w)
        ++ [NewSymlinkOp req (filepath.Join [path d; fuse.sl_NewName req])
              (fuse.sl_Target req) false])
  /\ (forall req,
      traces (events (snd (Release bk d req w)))
      = traces (events w)
        ++ (if isOpen d then [NewReleaseOp req (path d)] else []))
  /\ traces (events (snd (ReadDirAll bk GOOS d w)))
     = traces (events w)
       ++ (if isOpen d then [NewReadDirOp (path d) (Dir_ProcessInfo d)] else [])
  /\ (forall req resp,
      traces (events (snd (Lookup bk GOOS d req resp w)))
      = traces (events w)
        ++ (if skipDirEntry GOOS (fuse.lk_Name req) then []
            else [NewLookupOp req (filepath.Join [path d; fuse.lk_Name req])
                    false])).
Proof.
  repeat split; intros.
  - apply Open_traces.
  - apply Mkdir_traces.
  - apply Remove_traces.
  - apply Create_traces.
  - apply Symlink_traces.
  - apply Release_traces.
  - apply ReadDirAll_traces.
  - apply Lookup_traces.
Qed.

(** C1 (as stated, refuted): a Release on a Directory whose Handle is
    closed returns success and emits no trace record at all. *)
Lemma Release_on_closed_handle_emits_no_record :
  fst (Release demo.backing demo.dirA demo.release demo.world)
  = Returned (demo.dirA, nil_error)
  /\ List.length
       (traces (events (snd (Release demo.backing demo.dirA demo.release
                               demo.world)))) <> 1.
Proof. split; [reflexivity | vm_compute; discriminate]. Qed.

(** C7: a Release on a closed Handle returns success and changes nothing: no
    flush, no close, no event of any kind.  A Release that returns leaves
    the Handle closed, having closed the descriptor exactly once if it was
    open, so a second Release finds the Handle closed and leaves the
    Directory and the world as they are. *)
Theorem Release_closed_noop_idempotent
  {K : Type} (bk : Backing K) (d : Dir) (req : fuse.ReleaseRequest)
  (w : World K) :
  (isOpen d = false -> Release bk d req w = (Returned (d, nil_error), w))
  /\ (forall d1 e1 w1,
        Release bk d req w = (Returned (d1, e1), w1) ->
        isOpen d1 = false
        /\ closes (events w1)
           = closes (events w)
             ++ match file d with Some f => [f] | None => [] end
        /\ forall req', Release bk d1 req' w1 = (Returned (d1, nil_error), w1)).
Proof.
  split.
  - apply Release_closed.
  - intros d1 e1 w1 H. destruct (Release_returns bk _ _ _ _ _ _ H) as [Hc Hn].
    repeat split; [exact Hc | exact Hn |].
    intros req'. now apply Release_closed.
Qed.

(** C7 on the demo filesystem: the first Release of an open directory
    flushes and closes, the second one does nothing. *)
Lemma Release_closed_noop_idempotent_witness :
  let d1 := withHandle demo.openA {| file := None; handleID := 2%Z |} in
  let r := Release demo.backing demo.openA demo.release demo.world in
  fst r = Returned (d1, nil_error)
  /\ isOpen d1 = false
  /\ closes (events (snd r)) = [{| os.Fd := 2%Z; os.Name := "/data/x/a" |}]
  /\ Release demo.backing d1 demo.release (snd r) = (Returned (d1, nil_error), snd r).
Proof.
  cbv zeta.
  destruct (Release_closed_noop_idempotent demo.backing demo.openA demo.release
              demo.world) as [_ H].
  destruct (H (withHandle demo.openA {| file := None; handleID := 2%Z |})
              nil_error
              (snd (Release demo.backing demo.openA demo.release demo.world))
              eq_refl) as [Hc [Hn Hr]].
  split; [reflexivity|]. split; [exact Hc|]. split; [exact Hn|].
  apply Hr.
Defined.

(** C8: ReadDirAll on a Directory whose Handle is not open fails with
    ENOTSUP and leaves the world untouched: the backing directory is not
    enumerated, nothing is called or recorded. *)
Theorem ReadDirAll_not_open_ENOTSUP
  {K : Type} (bk : Backing K) (GOOS : string) (d : Dir) (w : World K)
  (Hclosed : isOpen d = false) :
  ReadDirAll bk GOOS d w = (Returned ([], fuse.ENOTSUP GOOS), w).
Proof. now apply ReadDirAll_closed. Qed.

Lemma ReadDirAll_not_open_ENOTSUP_witness :
  isOpen demo.dirA = false
  /\ ReadDirAll demo.backing "linux" demo.dirA demo.world
     = (Returned ([], FuseErrno 95%Z), demo.world).
Proof.
  split; [reflexivity|].
  apply (ReadDirAll_not_open_ENOTSUP demo.backing "linux" demo.dirA demo.world).
  reflexivity.
Defined.

(** ** Directory enumeration *)

Section Enumeration.

Context {K : Type} (bk : Backing K) (GOOS : string).

Lemma getFuseDirent_run p n w :
  exists de k',
    getFuseDirent bk p n w
    = (Returned de, {| kernel := k'; events := events w ++ [CallLstat p] |})
    /\ fuse.Name de = n.
Proof.
  cbv [getFuseDirent syscall_Lstat bind call ret].
  destruct (k_lstat bk (kernel w) p) as [k' [st|e]]; eauto.
Qed.

Lemma readEntries_run d names :
  forall result w,
  exists ents w',
    readEntries bk GOOS d names result w = (Returned (result ++ ents), w')
    /\ map fuse.Name ents = shown GOOS names.
Proof.
  induction names as [|n names IH]; intros result w; cbn [readEntries].
  - exists [], w. now rewrite app_nil_r.
  - unfold shown. cbn [filter].
    destruct (skipDirEntry GOOS n) eqn:Hs; cbn [negb].
    + apply IH.
    + destruct (getFuseDirent_run (filepath.Join [path d; n]) n w)
        as (de & k' & Hde & Hn).
      unfold bind at 1. rewrite Hde.
      destruct (IH (result ++ [de])
                  {| kernel := k';
                     events := events w
                               ++ [CallLstat (filepath.Join [path d; n])] |})
        as (ents & w' & Hr & Hm).
      exists (de :: ents), w'. split.
      * rewrite Hr. now rewrite <- app_assoc.
      * cbn [map]. now rewrite Hn, Hm.
Qed.

(** Readdirnames always returns, and never lists "." or "..". *)
Lemma Readdirnames_returns f n w :
  exists names err w1,
    Readdirnames bk f n w = (Returned (names, err), w1)
    /\ ~ In "." names /\ ~ In ".." names.
Proof.
  destruct f as [fl|]; cbv [Readdirnames bind call ret].
  - destruct (k_getdents bk (kernel w) fl) as [k1 [raw err]].
    do 3 eexists. split; [reflexivity|].
    split; intros Hin; apply filter_In in Hin; destruct Hin as [_ Hin];
      cbn in Hin.
    + destruct (String.eqb_spec "." "."); [discriminate | congruence].
    + destruct (String.eqb ".." "."); cbn in Hin; [discriminate|].
      destruct (String.eqb_spec ".." ".."); [discriminate | congruence].
  - do 3 eexists. split; [reflexivity|]. split; intros [].
Qed.

Lemma Readdirnames_no_dots f n w names err w1 :
  Readdirnames bk f n w = (Returned (names, err), w1) ->
  ~ In "." names /\ ~ In ".." names.
Proof.
  intros H. destruct (Readdirnames_returns f n w) as (ns & e & w' & Hr & Hd).
  rewrite H in Hr. inversion Hr; subst. exact Hd.
Qed.

(** A run of ReadDirAll on an open Directory whose enumeration succeeds. *)
Lemma ReadDirAll_open_run (d : Dir) w names w1 :
  isOpen d = true ->
  Readdirnames bk (file d) 0%Z w = (Returned (names, nil_error), w1) ->
  exists ents dot dotdot w2,
    ReadDirAll bk GOOS d w = (Returned (ents ++ [dot; dotdot], nil_error), w2)
    /\ map fuse.Name ents = shown GOOS names
    /\ fuse.Name dot = "."
    /\ fuse.Name dotdot = ".."
    /\ (String.length (parent d) = 0 ->
        dotdot = fuse.set_Name dot ".."
        /\ exists evs,
            events w2
            = evs ++ [CallLstat (path d);
                      Traced (NewReadDirOp (path d) (Dir_ProcessInfo d))]).
Proof.
  intros Ho Hn. unfold ReadDirAll. rewrite Ho. cbn [negb].
  unfold defer, trace. unfold bind at 1. rewrite Hn. cbn [is_nil negb].
  destruct (readEntries_run d names [] w1) as (ents & w2 & Hr & Hm).
  unfold bind at 1. rewrite Hr. cbn [app].
  destruct (getFuseDirent_run (path d) "." w2) as (dot & k3 & Hdot & Hdn).
  unfold bind at 1. rewrite Hdot.
  destruct (String.length (parent d)) as [|len] eqn:Hp; cbn [Nat.ltb Nat.leb].
  - cbv [bind ret]. cbn.
    exists ents, dot, (fuse.set_Name dot ".."), 
      {| kernel := k3;
         events := (events w2 ++ [CallLstat (path d)])
                   ++ [Traced (NewReadDirOp (path d) (Dir_ProcessInfo d))] |}.
    repeat split; try assumption.
    exists (events w2). cbn. now rewrite <- app_assoc.
  - destruct (getFuseDirent_run (parent d) ".."
                {| kernel := k3; events := events w2 ++ [CallLstat (path d)] |})
      as (dd & k4 & Hdd & Hddn).
    unfold bind at 1. rewrite Hdd. cbv [ret]. cbn.
    do 4 eexists. repeat split; try eassumption; discriminate.
Qed.

(** When the enumeration fails the call fails with EIO. *)
Lemma ReadDirAll_enumeration_fails (d : Dir) w names err w1 :
  isOpen d = true ->
  Readdirnames bk (file d) 0%Z w = (Returned (names, err), w1) ->
  is_nil err = false ->
  fst (ReadDirAll bk GOOS d w) = Returned ([], fuse.EIO).
Proof.
  intros Ho Hn He. unfold ReadDirAll. rewrite Ho. cbn [negb].
  rewrite defer_trace_result. unfold bind. now rewrite Hn, He.
Qed.

Lemma is_nil_true err : is_nil err = true -> err = nil_error.
Proof. now destruct err. Qed.

(** No entry that ReadDirAll returns has a suppressed name. *)
Lemma ReadDirAll_shows_no_skipped (d : Dir) w ents err w' :
  ReadDirAll bk GOOS d w = (Returned (ents, err), w') ->
  forall e, In e ents -> skipDirEntry GOOS (fuse.Name e) = false.
Proof.
  intros H e He.
  destruct (isOpen d) eqn:Ho.
  - destruct (Readdirnames_returns (file d) 0%Z w)
      as (names & rerr & w1 & Hn & _).
    destruct (is_nil rerr) eqn:Hnil.
    + apply is_nil_true in Hnil. subst rerr.
      destruct (ReadDirAll_open_run d w names w1 Ho Hn)
        as (es & dot & dotdot & w2 & Hr & Hm & Hd & Hdd & _).
      rewrite Hr in H. inversion H; subst. clear H.
      apply in_app_or in He. destruct He as [He|[He|[He|[]]]].
      * assert (Hin : In (fuse.Name e) (shown GOOS names))
          by (rewrite <- Hm; now apply in_map).
        apply filter_In in Hin. destruct Hin as [_ Hin].
        now apply negb_true_iff in Hin.
      * subst e. rewrite Hd. apply skipDirEntry_dot.
      * subst e. rewrite Hdd. apply skipDirEntry_dotdot.
    + pose proof (ReadDirAll_enumeration_fails d w names rerr w1 Ho Hn Hnil)
        as Hf.
      rewrite H in Hf. inversion Hf; subst. destruct He.
  - rewrite (ReadDirAll_closed bk GOOS d w Ho) in H.
    inversion H; subst. destruct He.
Qed.

End Enumeration.

(** ** Lookup *)

Section LookupRuns.

Context {K : Type} (bk : Backing K) (GOOS : string).

Lemma Lookup_stat_fails (d : Dir) req resp w k' errno :
  k_lstat bk (kernel w) (filepath.Join [path d; fuse.lk_Name req])
  = (k', inr errno) ->
  fst (Lookup bk GOOS d req resp w) = Returned (resp, None, fuse.ENOENT).
Proof.
  intros Hs. unfold Lookup.
  destruct (skipDirEntry GOOS (fuse.lk_Name req)); [reflexivity|].
  rewrite defer_trace_result.
  cbv [syscall_Lstat bind call ret]. now rewrite Hs.
Qed.

(** Lookup always returns: a node and no error, or no node and ENOENT. *)
Lemma Lookup_returns (d : Dir) req resp w :
  exists resp' node err,
    fst (Lookup bk GOOS d req resp w) = Returned (resp', node, err)
    /\ ((err = nil_error /\ node <> None)
        \/ (err = fuse.ENOENT /\ node = None)).
Proof.
  unfold Lookup.
  destruct (skipDirEntry GOOS (fuse.lk_Name req)).
  - do 3 eexists. split; [reflexivity|]. now right.
  - rewrite defer_trace_result.
    cbv [syscall_Lstat bind call ret].
    destruct (k_lstat bk (kernel w) (filepath.Join [path d; fuse.lk_Name req]))
      as [k' [st|e]].
    + cbv zeta. destruct (os.IsDir (Attr_Mode (statToFuseAttr st)));
        do 3 eexists; (split; [reflexivity|]); left; split;
        [reflexivity | discriminate | reflexivity | discriminate].
    + do 3 eexists. split; [reflexivity|]. now right.
Qed.

End LookupRuns.

(** C5: when ReadDirAll runs on an open Directory and the backing
    enumeration succeeds, it returns the names of the backing directory that
    the name filter lets through, in the order of the enumeration, followed
    by "." and then ".."; each of the two dot names occurs exactly once in
    the result. *)
Theorem ReadDirAll_entries_then_dots
  {K : Type} (bk : Backing K) (GOOS : string) (d : Dir) (w : World K)
  (names : list string) (w1 : World K)
  (Hopen : isOpen d = true)
  (Hnames : Readdirnames bk (file d) 0%Z w = (Returned (names, nil_error), w1)) :
  exists ents w2,
    ReadDirAll bk GOOS d w = (Returned (ents, nil_error), w2)
    /\ map fuse.Name ents
       = filter (fun n => negb (skipDirEntry GOOS n)) names ++ ["."; ".."]
    /\ count_occ string_dec (map fuse.Name ents) "." = 1
    /\ count_occ string_dec (map fuse.Name ents) ".." = 1.
Proof.
  destruct (ReadDirAll_open_run bk GOOS d w names w1 Hopen Hnames)
    as (es & dot & dotdot & w2 & Hr & Hm & Hd & Hdd & _).
  destruct (Readdirnames_no_dots bk _ _ _ _ _ _ Hnames) as [Hn1 Hn2].
  assert (Hnames' : map fuse.Name (es ++ [dot; dotdot])
                    = shown GOOS names ++ ["."; ".."]).
  { rewrite map_app, Hm. cbn [map]. now rewrite Hd, Hdd. }
  exists (es ++ [dot; dotdot]), w2.
  split; [exact Hr|]. split; [exact Hnames'|].
  rewrite Hnames', !count_occ_app.
  assert (Hs : forall x, ~ In x names -> count_occ string_dec (shown GOOS names) x = 0).
  { intros x Hx. apply count_occ_not_In. intros Hin.
    apply filter_In in Hin. now destruct Hin. }
  rewrite (Hs _ Hn1), (Hs _ Hn2). split; reflexivity.
Qed.

Lemma ReadDirAll_entries_then_dots_witness :
  exists ents w2,
    ReadDirAll demo.backing "darwin" demo.openA demo.world
    = (Returned (ents, nil_error), w2)
    /\ map fuse.Name ents = ["f"; "sub"; "."; ".."].
Proof.
  destruct (ReadDirAll_entries_then_dots demo.backing "darwin" demo.openA
              demo.world ["f"; "._f"; "sub"] _ eq_refl eq_refl)
    as (ents & w2 & Hr & Hm & _).
  exists ents, w2. split; [exact Hr | exact Hm].
Defined.

(** C6: on an open Directory whose parent path is empty, when the backing
    enumeration succeeds, the last two entries are "." and "..", and the ".."
    entry is the "." entry under another name: same inode, same type, built
    from the one stat of the directory's own path. *)
Theorem ReadDirAll_root_dotdot_is_dot
  {K : Type} (bk : Backing K) (GOOS : string) (d : Dir) (w : World K)
  (names : list string) (w1 : World K)
  (Hroot : parent d = "")
  (Hopen : isOpen d = true)
  (Hnames : Readdirnames bk (file d) 0%Z w = (Returned (names, nil_error), w1)) :
  exists ents dot dotdot w2,
    ReadDirAll bk GOOS d w = (Returned (ents ++ [dot; dotdot], nil_error), w2)
    /\ fuse.Name dot = "."
    /\ fuse.Name dotdot = ".."
    /\ fuse.Inode dotdot = fuse.Inode dot
    /\ fuse.Type_ dotdot = fuse.Type_ dot
    /\ exists evs,
        events w2
        = evs ++ [CallLstat (path d);
                  Traced (NewReadDirOp (path d) (Dir_ProcessInfo d))].
Proof.
  destruct (ReadDirAll_open_run bk GOOS d w names w1 Hopen Hnames)
    as (es & dot & dotdot & w2 & Hr & Hm & Hd & Hdd & Hp).
  assert (Hlen : String.length (parent d) = 0) by now rewrite Hroot.
  destruct (Hp Hlen) as [Heq Hev].
  exists es, dot, dotdot, w2.
  repeat split; try assumption; subst dotdot; reflexivity.
Qed.

Lemma ReadDirAll_root_dotdot_is_dot_witness :
  exists ents dot dotdot w2,
    ReadDirAll demo.backing "linux" demo.openRoot demo.world
    = (Returned (ents ++ [dot; dotdot], nil_error), w2)
    /\ fuse.Name dot = "."
    /\ fuse.Name dotdot = ".."
    /\ fuse.Inode dotdot = fuse.Inode dot
    /\ fuse.Type_ dotdot = fuse.Type_ dot.
Proof.
  destruct (ReadDirAll_root_dotdot_is_dot demo.backing "linux" demo.openRoot
              demo.world ["a"; "b"] _ eq_refl eq_refl eq_refl)
    as (ents & dot & dotdot & w2 & Hr & Hd & Hdd & Hi & Ht & _).
  exists ents, dot, dotdot, w2. repeat split; assumption.
Defined.

Example demo_ReadDirAll_root :
  fst (ReadDirAll demo.backing "linux" demo.openRoot demo.world)
  = Returned
      ([ {| fuse.Inode := 2; fuse.Type_ := fuse.DT_Dir; fuse.Name := "a" |};
         {| fuse.Inode := 7; fuse.Type_ := fuse.DT_Dir; fuse.Name := "b" |};
         {| fuse.Inode := 1; fuse.Type_ := fuse.DT_Dir; fuse.Name := "." |};
         {| fuse.Inode := 1; fuse.Type_ := fuse.DT_Dir; fuse.Name := ".." |} ],
       nil_error).
Proof. vm_compute. reflexivity. Qed.

(** C9: a Lookup of a suppressed name returns ENOENT without touching the
    backing filesystem; no entry returned by ReadDirAll has a suppressed
    name; a Lookup whose stat of the joined path fails, with whatever error
    code, returns ENOENT; and Lookup always returns, either a node with no
    error or no node with ENOENT. *)
Theorem Lookup_reports_only_ENOENT
  {K : Type} (bk : Backing K) (GOOS : string) (d : Dir) (w : World K)
  (req : fuse.LookupRequest) (resp : LookupResponse) :
  (skipDirEntry GOOS (fuse.lk_Name req) = true ->
   Lookup bk GOOS d req resp w = (Returned (resp, None, fuse.ENOENT), w))
  /\ (forall ents err w',
        ReadDirAll bk GOOS d w = (Returned (ents, err), w') ->
        forall e, In e ents -> skipDirEntry GOOS (fuse.Name e) = false)
  /\ (forall k' errno,
        k_lstat bk (kernel w) (filepath.Join [path d; fuse.lk_Name req])
        = (k', inr errno) ->
        fst (Lookup bk GOOS d req resp w) = Returned (resp, None, fuse.ENOENT))
  /\ (exists resp' node err,
        fst (Lookup bk GOOS d req resp w) = Returned (resp', node, err)
        /\ ((err = nil_error /\ node <> None)
            \/ (err = fuse.ENOENT /\ node = None))).
Proof.
  split; [apply Lookup_skipped|].
  split; [apply ReadDirAll_shows_no_skipped|].
  split; [apply Lookup_stat_fails | apply Lookup_returns].
Qed.

Lemma Lookup_reports_only_ENOENT_witness :
  Lookup demo.backing "darwin" demo.dirA
    {| fuse.lk_Header := demo.header; fuse.lk_Name := "._f" |}
    {| lr_Node := 0; lr_Attr := statToFuseAttr (demo.stat 0 0);
       lr_AttrValid := 0; lr_EntryValid := 0 |} demo.world
  = (Returned
       ({| lr_Node := 0; lr_Attr := statToFuseAttr (demo.stat 0 0);
           lr_AttrValid := 0; lr_EntryValid := 0 |}, None, FuseErrno 2%Z),
     demo.world)
  /\ fst (Lookup demo.backing "linux" demo.dirA
            {| fuse.lk_Header := demo.header; fuse.lk_Name := "missing" |}
            {| lr_Node := 0; lr_Attr := statToFuseAttr (demo.stat 0 0);
               lr_AttrValid := 0; lr_EntryValid := 0 |} demo.world)
     = Returned
         ({| lr_Node := 0; lr_Attr := statToFuseAttr (demo.stat 0 0);
             lr_AttrValid := 0; lr_EntryValid := 0 |}, None, FuseErrno 2%Z).
Proof.
  split.
  - apply (Lookup_reports_only_ENOENT demo.backing "darwin" demo.dirA demo.world).
    reflexivity.
  - eapply (Lookup_reports_only_ENOENT demo.backing "linux" demo.dirA demo.world).
    reflexivity.
Defined.

(** ** Symlink *)

Section SymlinkRuns.

Context {K : Type} (bk : Backing K).

Lemma symlinks_app (a b : list Event) :
  symlinks (a ++ b) = symlinks a ++ symlinks b.
Proof.
  induction a as [|e a IH]; [reflexivity|].
  destruct e; simpl; now rewrite IH.
Qed.

(** Symlink makes three steps whatever the backing filesystem answers: a
    stat of the absolute target, the creation of the link, the trace. *)
Lemma Symlink_events (d : Dir) req w :
  events (snd (Symlink bk d req w))
  = events w
    ++ [CallLstat (fst (symlinkTargets d req));
        CallSymlink (snd (symlinkTargets d req))
          (filepath.Join [path d; fuse.sl_NewName req]);
        Traced (NewSymlinkOp req (filepath.Join [path d; fuse.sl_NewName req])
                  (fuse.sl_Target req) false)].
Proof.
  unfold Symlink. destruct (symlinkTargets d req) as [a l].
  cbv [defer trace bind os_Lstat os_Symlink call ret lift fst snd].
  destruct (k_lstat bk (kernel w) a) as [k1 [st|e]]; cbn [kernel events];
    destruct (k_symlink bk k1 l _) as [k2 err];
    destruct (is_nil err); cbn [negb];
    try destruct (osErrorToFuseError err);
    try destruct (is_nil nil_error);
    try destruct (os.IsDir _);
    cbn; rewrite <- ?app_assoc; reflexivity.
Qed.

(** The target that the link holds, read off the request. *)
Lemma symlinkTargets_linkTarget (d : Dir) req :
  let target := fuse.sl_Target req in
  let absTarget :=
    if filepath.IsAbs target then target
    else filepath.Join [path d; target] in
  snd (symlinkTargets d req)
  = if strings.HasPrefix absTarget (mountDir (fs d))
    then strings.Replace1 absTarget (mountDir (fs d)) (shadowDir (fs d))
    else target.
Proof.
  cbv zeta. unfold symlinkTargets.
  destruct (filepath.IsAbs (fuse.sl_Target req)); cbn [negb];
    match goal with
    | |- context [strings.HasPrefix ?a ?m] => destruct (strings.HasPrefix a m)
    end; reflexivity.
Qed.

End SymlinkRuns.


(** The example of the specification: mount root /mnt/x, shadow root
    /data/x, a link made in the directory a. *)
Example demo_Symlink_under_mount :
  symlinks (events (snd (Symlink demo.backing demo.dirA
                           (demo.symlink "link" "/mnt/x/b/file") demo.world)))
  = [("/data/x/b/file", "/data/x/a/link")].
Proof. vm_compute. reflexivity. Qed.

Example demo_Symlink_outside_mount :
  symlinks (events (snd (Symlink demo.backing demo.dirA
                           (demo.symlink "link" "/etc/passwd") demo.world)))
  = [("/etc/passwd", "/data/x/a/link")].
Proof. vm_compute. reflexivity. Qed.

Example demo_Symlink_relative :
  symlinks (events (snd (Symlink demo.backing demo.dirA
                           (demo.symlink "link" "../b/file") demo.world)))
  = [("../b/file", "/data/x/a/link")]
  /\ fst (symlinkTargets demo.dirA (demo.symlink "link" "../b/file"))
     = "/data/x/b/file".
Proof. vm_compute. split; reflexivity. Qed.

(** C10: the containment test of Symlink is a test on strings.  Whenever the
    absolute target starts with the mount-root string, wherever the next path
    element ends, the first occurrence of the mount root in it (the one at
    offset 0) is replaced by the shadow root, and the link holds the result. *)
Theorem Symlink_prefix_test_is_on_strings
  {K : Type} (bk : Backing K) (d : Dir) (req : fuse.SymlinkRequest)
  (w : World K) (absTarget : string)
  (Habs : absTarget
          = if filepath.IsAbs (fuse.sl_Target req) then fuse.sl_Target req
            else filepath.Join [path d; fuse.sl_Target req])
  (Hprefix : strings.HasPrefix absTarget (mountDir (fs d)) = true) :
  strings.Index absTarget (mountDir (fs d)) = Some 0
  /\ strings.Replace1 absTarget (mountDir (fs d)) (shadowDir (fs d))
     = (shadowDir (fs d)
        ++ strings.from (String.length (mountDir (fs d))) absTarget)%string
  /\ symlinks (events (snd (Symlink bk d req w)))
     = symlinks (events w)
       ++ [(strings.Replace1 absTarget (mountDir (fs d)) (shadowDir (fs d)),
            filepath.Join [path d; fuse.sl_NewName req])].
Proof.
  split; [now apply HasPrefix_Index|].
  split; [now apply Replace1_prefix|].
  rewrite Symlink_events, symlinks_app. cbn [symlinks].
  rewrite symlinkTargets_linkTarget. cbv zeta.
  rewrite <- Habs, Hprefix. reflexivity.
Qed.

Lemma Symlink_prefix_test_is_on_strings_witness :
  strings.HasPrefix "/mnt/xtra/f" "/mnt/x" = true
  /\ symlinks (events (snd (Symlink demo.backing demo.dirA
                              (demo.symlink "link" "/mnt/xtra/f") demo.world)))
     = [("/data/xtra/f", "/data/x/a/link")].
Proof.
  split; [reflexivity|].
  apply (Symlink_prefix_test_is_on_strings demo.backing demo.dirA
           (demo.symlink "link" "/mnt/xtra/f") demo.world "/mnt/xtra/f"
           eq_refl eq_refl).
Defined.

(** * Further properties of dir.go *)

(** ** The error translator *)

Lemma translate_nil_iff (err : error) :
  osErrorToFuseError err = Returned nil_error <-> err = nil_error.
Proof.
  split; [|intros ->; reflexivity].
  destruct err as [|[[? ? inner]|]|[[? ? ? inner]|]|e|p|e|msg]; cbn;
    try destruct inner; cbn; intros H; try reflexivity; discriminate.
Qed.

Lemma translate_nonnil (err r : error) :
  is_nil err = false -> osErrorToFuseError err = Returned r -> is_nil r = false.
Proof.
  intros Hn Hr. destruct (is_nil r) eqn:E; [|reflexivity].
  apply is_nil_true in E. subst r. apply translate_nil_iff in Hr.
  subst err. discriminate.
Qed.

(** X1: the translator returns nil for nil and for nothing else: a failure
    of the backing filesystem is never turned into a success. *)
Theorem osErrorToFuseError_nil_only_for_nil (err : error) :
  osErrorToFuseError err = Returned nil_error <-> err = nil_error.
Proof. apply translate_nil_iff. Qed.

(** X2: the exact inputs on which the translator panics: a nil *os.PathError
    or *os.LinkError, a PathError or LinkError whose inner error is not a
    syscall.Errno value, and every *syscall.Errno.  On every other input it
    returns. *)
Theorem osErrorToFuseError_panics_exactly_when (err : error) :
  (exists msg, osErrorToFuseError err = Panicked msg)
  <-> (err = PathErrorPtr None
       \/ err = LinkErrorPtr None
       \/ (exists op p inner,
              err = PathErrorPtr (Some (mkPathError op p inner))
              /\ forall e, inner <> ErrnoValue e)
       \/ (exists op o n inner,
              err = LinkErrorPtr (Some (mkLinkError op o n inner))
              /\ forall e, inner <> ErrnoValue e)
       \/ exists p, err = ErrnoPtr p).
Proof.
  split.
  - intros [msg H].
    destruct err as [|[[op p inner]|]|[[op o n inner]|]|e|p|e|m];
      cbn in H; try discriminate.
    + right. right. left. exists op, p, inner. split; [reflexivity|].
      intros e ->. discriminate.
    + now left.
    + right. right. right. left. exists op, o, n, inner. split; [reflexivity|].
      intros e ->. discriminate.
    + right. now left.
    + right. right. right. right. now exists p.
  - intros [->|[->|[(op & p & inner & -> & Hne)|[(op & o & n & inner & -> & Hne)|[p ->]]]]];
      try (eexists; reflexivity).
    + destruct inner; cbn; eauto. now destruct (Hne e).
    + destruct inner; cbn; eauto. now destruct (Hne e).
Qed.

(** X3: the translator is not meant for its own output: an error code that
    it has produced goes in as an unrecognised shape and comes out as EIO,
    whatever code it carried. *)
Theorem osErrorToFuseError_twice_is_EIO (err r : error)
  (Hfirst : osErrorToFuseError err = Returned r)
  (Hfailed : err <> nil_error) :
  osErrorToFuseError r = Returned fuse.EIO.
Proof.
  destruct (osErrorToFuseError_returns err r Hfirst) as [->|[e ->]].
  - apply translate_nil_iff in Hfirst. contradiction.
  - reflexivity.
Qed.

Lemma osErrorToFuseError_twice_is_EIO_witness :
  osErrorToFuseError (demo.pathError "mkdir" "/data/x/a" syscall.EEXIST)
  = Returned (FuseErrno 17%Z)
  /\ osErrorToFuseError (FuseErrno 17%Z) = Returned (FuseErrno 5%Z).
Proof.
  split; [reflexivity|].
  apply (osErrorToFuseError_twice_is_EIO
           (demo.pathError "mkdir" "/data/x/a" syscall.EEXIST) (FuseErrno 17%Z)
           eq_refl).
  discriminate.
Defined.

(** ** The name filter *)

Lemma HasPrefix_iff (s p : string) :
  strings.HasPrefix s p = true <-> exists rest, s = (p ++ rest)%string.
Proof.
  split.
  - intros H. eexists. now apply HasPrefix_split.
  - intros [rest ->]. induction p as [|c p IH]; [now destruct rest|].
    cbn. now rewrite Ascii.eqb_refl, IH.
Qed.

(** X4: what the platform's filter suppresses: on Darwin exactly the names
    that start with "._" (so "._" itself, but neither "." nor ".."), and on
    every other platform nothing at all. *)
Theorem skipDirEntry_suppresses (GOOS n : string) :
  skipDirEntry GOOS n = true
  <-> GOOS = "darwin" /\ exists rest, n = ("._" ++ rest)%string.
Proof.
  unfold skipDirEntry. destruct (String.eqb_spec GOOS "darwin") as [->|Hne].
  - rewrite HasPrefix_iff. split; [intros H; now split | now intros [_ H]].
  - split; [discriminate | now intros [H _]].
Qed.

(** ** Mkdir, Remove and Create: one call each *)

Section Passthrough.

Context {K : Type} (bk : Backing K).

Lemma Mkdir_run (d : Dir) req w :
  Mkdir bk d req w
  = (let p := filepath.Join [path d; fuse.mk_Name req] in
     let (k1, err) := k_mkdir bk (kernel w) p (fuse.mk_Mode req) in
     (if is_nil err
      then Returned (Some (DirNode (NewDir (path d) (fuse.mk_Name req) (fs d))),
                     nil_error)
      else bindO (osErrorToFuseError err) (fun e => Returned (None, e)),
      {| kernel := k1;
         events := events w
                   ++ [CallMkdir p (fuse.mk_Mode req);
                       Traced (NewMkdirOp req p (fuse.mk_Mode req))] |})).
Proof.
  cbv [Mkdir defer trace bind os_Mkdir call ret lift bindO].
  destruct (k_mkdir bk (kernel w) _ _) as [k1 err].
  destruct (is_nil err); cbn [negb];
    try destruct (osErrorToFuseError err);
    cbn; now rewrite <- app_assoc.
Qed.

Lemma Remove_run (d : Dir) req w :
  Remove bk d req w
  = (let p := filepath.Join [path d; fuse.rm_Name req] in
     let (k1, err) := k_remove bk (kernel w) p in
     (if is_nil err then Returned nil_error else osErrorToFuseError err,
      {| kernel := k1;
         events := events w ++ [CallRemove p; Traced (NewRemoveOp req p)] |})).
Proof.
  cbv [Remove defer trace bind os_Remove call ret lift].
  destruct (k_remove bk (kernel w) _) as [k1 err].
  destruct (is_nil err); cbn [negb];
    try destruct (osErrorToFuseError err);
    cbn; now rewrite <- app_assoc.
Qed.

Lemma Create_run (d : Dir) req w :
  Create bk d req w
  = (let p := filepath.Join [path d; fuse.cr_Name req] in
     let '(k1, (f, err)) :=
       k_openfile bk (kernel w) p (fuse.cr_Flags req) (fuse.cr_Mode req) in
     (if is_nil err
      then let newfile := NewOpenFile (path d) (fuse.cr_Name req) (fs d) f in
           Returned (Some newfile, Some newfile, nil_error)
      else bindO (osErrorToFuseError err) (fun e => Returned (None, None, e)),
      {| kernel := k1;
         events := events w
                   ++ [CallOpenFile p (fuse.cr_Flags req) (fuse.cr_Mode req);
                       Traced (NewCreateOp req p)] |})).
Proof.
  cbv [Create defer trace bind os_OpenFile call ret lift bindO].
  destruct (k_openfile bk (kernel w) _ _ _) as [k1 [f err]].
  destruct (is_nil err); cbn [negb];
    try destruct (osErrorToFuseError err);
    cbn; now rewrite <- app_assoc.
Qed.

End Passthrough.

(** X5: Mkdir, Remove and Create each make exactly one call into the backing
    filesystem, on the request's name joined to the directory's path and with
    the mode and flags of the request unchanged, followed by their trace
    record; nothing else is called, whether the call succeeds, fails or the
    translation of its error panics. *)
Theorem Mkdir_Remove_Create_make_one_call
  {K : Type} (bk : Backing K) (d : Dir) (w : World K) :
  (forall req,
      let p := filepath.Join [path d; fuse.mk_Name req] in
      events (snd (Mkdir bk d req w))
      = events w ++ [CallMkdir p (fuse.mk_Mode req);
                     Traced (NewMkdirOp req p (fuse.mk_Mode req))])
  /\ (forall req,
      let p := filepath.Join [path d; fuse.rm_Name req] in
      events (snd (Remove bk d req w))
      = events w ++ [CallRemove p; Traced (NewRemoveOp req p)])
  /\ (forall req,
      let p := filepath.Join [path d; fuse.cr_Name req] in
      events (snd (Create bk d req w))
      = events w ++ [CallOpenFile p (fuse.cr_Flags req) (fuse.cr_Mode req);
                     Traced (NewCreateOp req p)]).
Proof.
  repeat split; intros req; cbv zeta.
  - rewrite Mkdir_run. cbv zeta. now destruct (k_mkdir bk _ _ _).
  - rewrite Remove_run. cbv zeta. now destruct (k_remove bk _ _).
  - rewrite Create_run. cbv zeta. now destruct (k_openfile bk _ _ _ _) as [? [? ?]].
Qed.

(** X6: the error code of the backing filesystem reaches the caller as it
    is: when os.Mkdir, os.Remove or os.OpenFile fails with a *os.PathError
    that wraps the errno e, or os.Symlink with a *os.LinkError that wraps e,
    the operation returns fuse.Errno(e) and no node. *)
Theorem backing_errno_is_passed_through
  {K : Type} (bk : Backing K) (d : Dir) (w : World K) (e : syscall.Errno) :
  (forall req k1 op q,
      k_mkdir bk (kernel w) (filepath.Join [path d; fuse.mk_Name req])
        (fuse.mk_Mode req)
      = (k1, PathErrorPtr (Some (mkPathError op q (ErrnoValue e)))) ->
      fst (Mkdir bk d req w) = Returned (None, FuseErrno e))
  /\ (forall req k1 op q,
      k_remove bk (kernel w) (filepath.Join [path d; fuse.rm_Name req])
      = (k1, PathErrorPtr (Some (mkPathError op q (ErrnoValue e)))) ->
      fst (Remove bk d req w) = Returned (FuseErrno e))
  /\ (forall req k1 f op q,
      k_openfile bk (kernel w) (filepath.Join [path d; fuse.cr_Name req])
        (fuse.cr_Flags req) (fuse.cr_Mode req)
      = (k1, (f, PathErrorPtr (Some (mkPathError op q (ErrnoValue e))))) ->
      fst (Create bk d req w) = Returned (None, None, FuseErrno e))
  /\ (forall req k1 st k2 op o n,
      k_lstat bk (kernel w) (fst (symlinkTargets d req)) = (k1, st) ->
      k_symlink bk k1 (snd (symlinkTargets d req))
        (filepath.Join [path d; fuse.sl_NewName req])
      = (k2, LinkErrorPtr (Some (mkLinkError op o n (ErrnoValue e)))) ->
      fst (Symlink bk d req w) = Returned (None, FuseErrno e)).
Proof.
  repeat split.
  - intros req k1 op q H. rewrite Mkdir_run. cbv zeta. now rewrite H.
  - intros req k1 op q H. rewrite Remove_run. cbv zeta. now rewrite H.
  - intros req k1 f op q H. rewrite Create_run. cbv zeta. now rewrite H.
  - intros req k1 st k2 op o n Hs Hl. unfold Symlink.
    rewrite defer_trace_result.
    destruct (symlinkTargets d req) as [a l]. cbn [fst snd] in Hs, Hl.
    cbv [bind os_Lstat os_Symlink call ret lift]. rewrite Hs.
    destruct st as [st|en]; cbn [kernel events]; now rewrite Hl.
Qed.

Lemma backing_errno_is_passed_through_witness :
  fst (Mkdir demo.backing demo.root
         {| fuse.mk_Header := demo.header; fuse.mk_Name := "a";
            fuse.mk_Mode := 493%Z |} demo.world)
  = Returned (None, FuseErrno 17%Z)
  /\ fst (Symlink demo.backing demo.dirA (demo.symlink "f" "/etc/passwd")
            demo.world)
     = Returned (None, FuseErrno 17%Z).
Proof.
  split.
  - eapply (backing_errno_is_passed_through demo.backing demo.root demo.world
              syscall.EEXIST).
    reflexivity.
  - eapply (backing_errno_is_passed_through demo.backing demo.dirA demo.world
              syscall.EEXIST); reflexivity.
Defined.

Lemma is_nil_false (err : error) : is_nil err = false <-> err <> nil_error.
Proof. destruct err; cbn; split; congruence. Qed.

Lemma Symlink_result {K : Type} (bk : Backing K) (d : Dir) req w :
  fst (Symlink bk d req w)
  = (let '(a, l) := symlinkTargets d req in
     let (k1, r) := k_lstat bk (kernel w) a in
     let (k2, err) :=
       k_symlink bk k1 l (filepath.Join [path d; fuse.sl_NewName req]) in
     if is_nil err
     then Returned
            (Some (match r with
                   | inl st =>
                       if os.IsDir (fileModeOfStat (syscall.Mode st))
                       then DirNode (NewDir (path d) (fuse.sl_NewName req) (fs d))
                       else FileNode (NewFile (path d) (fuse.sl_NewName req) (fs d))
                   | inr _ => FileNode (NewFile (path d) (fuse.sl_NewName req) (fs d))
                   end), nil_error)
     else bindO (osErrorToFuseError err) (fun e => Returned (None, e))).
Proof.
  unfold Symlink. rewrite defer_trace_result.
  destruct (symlinkTargets d req) as [a l].
  cbv [bind os_Lstat os_Symlink call ret lift bindO].
  destruct (k_lstat bk (kernel w) a) as [k1 [st|en]]; cbn [kernel events is_nil];
    destruct (k_symlink bk k1 l _) as [k2 err];
    destruct (is_nil err); cbn [negb];
    try destruct (osErrorToFuseError err);
    try destruct (os.IsDir _); reflexivity.
Qed.

Ltac settle_outcome :=
  match goal with
  | L : is_nil ?b = true |- _ =>
      apply is_nil_true in L; subst b;
      intros H; inversion H; subst; clear H
  | L : is_nil ?b = false |- _ =>
      let r := fresh "r" in
      let E := fresh "E" in
      destruct (osErrorToFuseError b) as [r|] eqn:E; cbn;
      intros H; inversion H; subst; clear H;
      pose proof (translate_nonnil _ _ L E) as Hr;
      apply is_nil_false in Hr; apply is_nil_false in L
  end.

(** X7: Mkdir, Remove, Create and Symlink report success exactly when the
    one call that makes the change succeeded, and they return a node exactly
    when they report success; Create returns one and the same File as the
    node and as the handle. *)
Theorem success_exactly_when_backing_call_succeeds
  {K : Type} (bk : Backing K) (d : Dir) (w : World K) :
  (forall req node err,
      fst (Mkdir bk d req w) = Returned (node, err) ->
      (err = nil_error
       <-> snd (k_mkdir bk (kernel w) (filepath.Join [path d; fuse.mk_Name req])
                  (fuse.mk_Mode req)) = nil_error)
      /\ (node = None <-> err <> nil_error))
  /\ (forall req err,
      fst (Remove bk d req w) = Returned err ->
      (err = nil_error
       <-> snd (k_remove bk (kernel w) (filepath.Join [path d; fuse.rm_Name req]))
           = nil_error))
  /\ (forall req node handle err,
      fst (Create bk d req w) = Returned (node, handle, err) ->
      (err = nil_error
       <-> snd (snd (k_openfile bk (kernel w)
                       (filepath.Join [path d; fuse.cr_Name req])
                       (fuse.cr_Flags req) (fuse.cr_Mode req))) = nil_error)
      /\ handle = node
      /\ (node = None <-> err <> nil_error))
  /\ (forall req node err,
      fst (Symlink bk d req w) = Returned (node, err) ->
      (err = nil_error
       <-> snd (k_symlink bk
                  (fst (k_lstat bk (kernel w) (fst (symlinkTargets d req))))
                  (snd (symlinkTargets d req))
                  (filepath.Join [path d; fuse.sl_NewName req])) = nil_error)
      /\ (node = None <-> err <> nil_error)).
Proof.
  split; [|split; [|split]].
  - intros req node err. rewrite Mkdir_run. cbv zeta.
    destruct (k_mkdir bk _ _ _) as [k1 berr]. cbn [fst snd].
    destruct (is_nil berr) eqn:L; settle_outcome;
      repeat split; intros; congruence.
  - intros req err. rewrite Remove_run. cbv zeta.
    destruct (k_remove bk _ _) as [k1 berr]. cbn [fst snd].
    destruct (is_nil berr) eqn:L.
    + apply is_nil_true in L. subst berr. intros H; inversion H. tauto.
    + intros H. pose proof (translate_nonnil _ _ L H) as Hr.
      apply is_nil_false in Hr. apply is_nil_false in L. tauto.
  - intros req node handle err. rewrite Create_run. cbv zeta.
    destruct (k_openfile bk _ _ _ _) as [k1 [f berr]]. cbn [fst snd].
    destruct (is_nil berr) eqn:L; settle_outcome;
      repeat split; intros; congruence.
  - intros req node err. rewrite Symlink_result.
    destruct (symlinkTargets d req) as [a l]. cbn [fst snd].
    destruct (k_lstat bk (kernel w) a) as [k1 r]. cbn [fst snd].
    destruct (k_symlink bk k1 l _) as [k2 berr]. cbn [fst snd].
    destruct (is_nil berr) eqn:L; settle_outcome;
      repeat split; intros; congruence.
Qed.

Lemma success_exactly_when_backing_call_succeeds_witness :
  fst (Mkdir demo.backing demo.dirA
         {| fuse.mk_Header := demo.header; fuse.mk_Name := "new";
            fuse.mk_Mode := 493%Z |} demo.world)
  = Returned (Some (DirNode (NewDir "/data/x/a" "new" demo.clue)), nil_error)
  /\ (Some (DirNode (NewDir "/data/x/a" "new" demo.clue)) = None
      <-> nil_error <> nil_error).
Proof.
  destruct (success_exactly_when_backing_call_succeeds demo.backing demo.dirA
              demo.world) as [Hmkdir _].
  destruct (Hmkdir {| fuse.mk_Header := demo.header; fuse.mk_Name := "new";
                      fuse.mk_Mode := 493%Z |}
              (Some (DirNode (NewDir "/data/x/a" "new" demo.clue))) nil_error
              eq_refl) as [_ Hnode].
  split; [reflexivity | exact Hnode].
Defined.

(** ** Symlink: what is statted, and what comes back *)

Lemma symlinkTargets_absTarget (d : Dir) req :
  let target := fuse.sl_Target req in
  let absTarget :=
    if filepath.IsAbs target then target
    else filepath.Join [path d; target] in
  fst (symlinkTargets d req)
  = if strings.HasPrefix absTarget (mountDir (fs d))
    then strings.Replace1 absTarget (mountDir (fs d)) (shadowDir (fs d))
    else absTarget.
Proof.
  cbv zeta. unfold symlinkTargets.
  destruct (filepath.IsAbs (fuse.sl_Target req)); cbn [negb];
    match goal with
    | |- context [strings.HasPrefix ?a ?m] => destruct (strings.HasPrefix a m)
    end; reflexivity.
Qed.

(** os.FileInfo.IsDir on the mode that os.Lstat builds: the S_IFDIR test. *)
Lemma IsDir_fileModeOfStat (m : Z) :
  os.IsDir (fileModeOfStat m)
  = (Z.land m syscall.S_IFMT =? syscall.S_IFDIR)%Z.
Proof.
  unfold os.IsDir, fileModeOfStat.
  assert (Hperm : Z.land (Z.land m os.ModePerm) os.ModeDir = 0%Z).
  { rewrite <- Z.land_assoc.
    replace (Z.land os.ModePerm os.ModeDir) with 0%Z by reflexivity.
    apply Z.land_0_r. }
  destruct (Z.land m syscall.S_IFMT =? syscall.S_IFDIR)%Z.
  - rewrite Z.land_lor_distr_l, Hperm, Z.land_diag. reflexivity.
  - now rewrite Hperm.
Qed.

(** X8: Symlink stats before it links, and it stats the target as it will be
    persisted: under the shadow root when the absolute target starts with
    the mount root, the absolute target itself otherwise (for a relative
    target, its join with the directory's path, while the link keeps the
    relative target).  The trace record keeps the target of the request. *)
Theorem Symlink_stats_the_rewritten_target_first
  {K : Type} (bk : Backing K) (d : Dir) (req : fuse.SymlinkRequest)
  (w : World K) :
  let target := fuse.sl_Target req in
  let newname := filepath.Join [path d; fuse.sl_NewName req] in
  let absTarget :=
    if filepath.IsAbs target then target
    else filepath.Join [path d; target] in
  let rewritten :=
    (shadowDir (fs d)
     ++ strings.from (String.length (mountDir (fs d))) absTarget)%string in
  events (snd (Symlink bk d req w))
  = events w
    ++ (if strings.HasPrefix absTarget (mountDir (fs d))
        then [CallLstat rewritten; CallSymlink rewritten newname]
        else [CallLstat absTarget; CallSymlink target newname])
    ++ [Traced (NewSymlinkOp req newname target false)].
Proof.
  cbv zeta. rewrite Symlink_events.
  rewrite symlinkTargets_absTarget, symlinkTargets_linkTarget. cbv zeta.
  match goal with
  | |- context [strings.HasPrefix ?a ?m] =>
      destruct (strings.HasPrefix a m) eqn:Hp
  end; [|reflexivity].
  now rewrite (Replace1_prefix _ _ _ Hp).
Qed.

(** X9: when the link is made, Symlink returns a Dir node if the stat of the
    target succeeded on a directory (S_IFDIR), and a File node in every other
    case; in particular a link to a target that does not exist is made all
    the same and comes back as a File node. *)
Theorem Symlink_node_follows_the_stat
  {K : Type} (bk : Backing K) (d : Dir) (req : fuse.SymlinkRequest)
  (w : World K) (k1 k2 : K) (r : syscall.Stat_t + syscall.Errno)
  (Hstat : k_lstat bk (kernel w) (fst (symlinkTargets d req)) = (k1, r))
  (Hlink : k_symlink bk k1 (snd (symlinkTargets d req))
             (filepath.Join [path d; fuse.sl_NewName req]) = (k2, nil_error)) :
  fst (Symlink bk d req w)
  = Returned
      (Some (match r with
             | inl st =>
                 if (Z.land (syscall.Mode st) syscall.S_IFMT =? syscall.S_IFDIR)%Z
                 then DirNode (NewDir (path d) (fuse.sl_NewName req) (fs d))
                 else FileNode (NewFile (path d) (fuse.sl_NewName req) (fs d))
             | inr _ => FileNode (NewFile (path d) (fuse.sl_NewName req) (fs d))
             end), nil_error).
Proof.
  rewrite Symlink_result.
  destruct (symlinkTargets d req) as [a l]. cbn [fst snd] in Hstat, Hlink.
  rewrite Hstat, Hlink. cbn [is_nil].
  destruct r as [st|en]; [|reflexivity].
  now rewrite IsDir_fileModeOfStat.
Qed.

Lemma Symlink_node_follows_the_stat_witness :
  fst (Symlink demo.backing demo.dirA (demo.symlink "dangling" "/nowhere")
         demo.world)
  = Returned (Some (FileNode (NewFile "/data/x/a" "dangling" demo.clue)),
              nil_error)
  /\ fst (Symlink demo.backing demo.dirA (demo.symlink "tob" "/mnt/x/b")
            demo.world)
     = Returned (Some (DirNode (NewDir "/data/x/a" "tob" demo.clue)), nil_error).
Proof.
  split.
  - apply (Symlink_node_follows_the_stat demo.backing demo.dirA
             (demo.symlink "dangling" "/nowhere") demo.world
             demo.disk _ (inr syscall.ENOENT) eq_refl eq_refl).
  - apply (Symlink_node_follows_the_stat demo.backing demo.dirA
             (demo.symlink "tob" "/mnt/x/b") demo.world
             demo.disk _ (inl (demo.stat 7 16877%Z)) eq_refl eq_refl).
Defined.

(** ** Lookup, and the nodes that are handed out *)

Lemma Lookup_run {K : Type} (bk : Backing K) (GOOS : string) (d : Dir)
  req resp w :
  skipDirEntry GOOS (fuse.lk_Name req) = false ->
  Lookup bk GOOS d req resp w
  = (let p := filepath.Join [path d; fuse.lk_Name req] in
     let (k1, r) := k_lstat bk (kernel w) p in
     (match r with
      | inr _ => Returned (resp, None, fuse.ENOENT)
      | inl st =>
          Returned
            ({| lr_Node := syscall.Ino st; lr_Attr := statToFuseAttr st;
                lr_AttrValid := Second; lr_EntryValid := (500 * Millisecond)%Z |},
             Some (if (Z.land (syscall.Mode st) syscall.S_IFMT =? syscall.S_IFDIR)%Z
                   then DirNode (NewDir (path d) (fuse.lk_Name req) (fs d))
                   else FileNode (NewFile (path d) (fuse.lk_Name req) (fs d))),
             nil_error)
      end,
      {| kernel := k1;
         events := events w ++ [CallLstat p; Traced (NewLookupOp req p false)] |})).
Proof.
  intros Hs. unfold Lookup. rewrite Hs.
  cbv [defer trace bind syscall_Lstat call ret].
  destruct (k_lstat bk (kernel w) _) as [k1 [st|en]]; cbn [kernel events].
  - cbv zeta. change (Attr_Mode (statToFuseAttr st))
      with (fileModeOfStat (syscall.Mode st)).
    rewrite IsDir_fileModeOfStat.
    destruct (Z.land (syscall.Mode st) syscall.S_IFMT =? syscall.S_IFDIR)%Z;
      cbn; now rewrite <- app_assoc.
  - cbn. now rewrite <- app_assoc.
Qed.

Lemma Lookup_not_skipped {K : Type} (bk : Backing K) (GOOS : string) (d : Dir)
  req resp w resp' n err :
  fst (Lookup bk GOOS d req resp w) = Returned (resp', Some n, err) ->
  skipDirEntry GOOS (fuse.lk_Name req) = false.
Proof.
  intros H. destruct (skipDirEntry GOOS (fuse.lk_Name req)) eqn:Hs; [|reflexivity].
  rewrite (Lookup_skipped bk GOOS d req resp w Hs) in H. discriminate.
Qed.

(** X10: every Dir node that Lookup, Mkdir or Symlink hands out is closed:
    until it is opened, ReadDirAll on it fails with ENOTSUP and Release on it
    returns success, both without touching the backing filesystem. *)
Theorem handed_out_Dir_is_closed
  {K : Type} (bk : Backing K) (GOOS : string) (d nd : Dir) (w : World K)
  (Hfrom :
     (exists req resp resp' err,
         fst (Lookup bk GOOS d req resp w) = Returned (resp', Some (DirNode nd), err))
     \/ (exists req err,
            fst (Mkdir bk d req w) = Returned (Some (DirNode nd), err))
     \/ (exists req err,
            fst (Symlink bk d req w) = Returned (Some (DirNode nd), err))) :
  isOpen nd = false
  /\ (forall w', ReadDirAll bk GOOS nd w' = (Returned ([], fuse.ENOTSUP GOOS), w'))
  /\ (forall req w', Release bk nd req w' = (Returned (nd, nil_error), w')).
Proof.
  assert (Hnew : exists n, nd = NewDir (path d) n (fs d)).
  { destruct Hfrom as [(req & resp & resp' & err & H)
                      |[(req & err & H)|(req & err & H)]].
    - pose proof (Lookup_not_skipped _ _ _ _ _ _ _ _ _ H) as Hs.
      rewrite (Lookup_run bk GOOS d req resp w Hs) in H. cbv zeta in H.
      destruct (k_lstat bk (kernel w) _) as [k1 [st|en]]; cbn [fst] in H;
        [|discriminate].
      destruct (Z.land (syscall.Mode st) syscall.S_IFMT =? syscall.S_IFDIR)%Z;
        inversion H. eauto.
    - rewrite Mkdir_run in H. cbv zeta in H.
      destruct (k_mkdir bk _ _ _) as [k1 berr]. cbn [fst] in H.
      destruct (is_nil berr).
      + inversion H. eauto.
      + destruct (osErrorToFuseError berr); cbn in H; discriminate.
    - rewrite Symlink_result in H.
      destruct (symlinkTargets d req) as [a l].
      destruct (k_lstat bk (kernel w) a) as [k1 r].
      destruct (k_symlink bk k1 l _) as [k2 berr].
      destruct (is_nil berr).
      + destruct r as [st|en]; [|discriminate].
        destruct (os.IsDir _); inversion H. eauto.
      + destruct (osErrorToFuseError berr); cbn in H; discriminate. }
  destruct Hnew as [n ->].
  split; [reflexivity|]. split; intros.
  - now apply ReadDirAll_closed.
  - now apply Release_closed.
Qed.

Lemma handed_out_Dir_is_closed_witness :
  fst (Lookup demo.backing "linux" demo.dirA
         {| fuse.lk_Header := demo.header; fuse.lk_Name := "sub" |}
         {| lr_Node := 0; lr_Attr := statToFuseAttr (demo.stat 0 0);
            lr_AttrValid := 0; lr_EntryValid := 0 |} demo.world)
  = Returned
      ({| lr_Node := 5; lr_Attr := statToFuseAttr (demo.stat 5 16877%Z);
          lr_AttrValid := 1000000000; lr_EntryValid := 500000000 |},
       Some (DirNode (NewDir "/data/x/a" "sub" demo.clue)), nil_error)
  /\ ReadDirAll demo.backing "linux" (NewDir "/data/x/a" "sub" demo.clue)
       demo.world
     = (Returned ([], FuseErrno 95%Z), demo.world).
Proof.
  split; [reflexivity|].
  apply (handed_out_Dir_is_closed demo.backing "linux" demo.dirA
           (NewDir "/data/x/a" "sub" demo.clue) demo.world).
  left.
  exists {| fuse.lk_Header := demo.header; fuse.lk_Name := "sub" |},
    {| lr_Node := 0%Z; lr_Attr := statToFuseAttr (demo.stat 0 0);
       lr_AttrValid := 0%Z; lr_EntryValid := 0%Z |}.
  do 2 eexists. reflexivity.
Defined.

(** X11: a Lookup of a name that is not suppressed makes one lstat of the
    name joined to the directory's path and nothing else.  When the stat
    succeeds the response carries the translated attributes, their inode as
    the node id, and the validity windows of one second (attributes) and 500
    milliseconds (entry); the node is a Dir node exactly when the translated
    mode is a directory's, a File node otherwise, and is built from the
    directory's path and the name. *)
Theorem Lookup_answers_from_one_lstat
  {K : Type} (bk : Backing K) (GOOS : string) (d : Dir)
  (req : fuse.LookupRequest) (resp : LookupResponse) (w : World K)
  (k1 : K) (st : syscall.Stat_t)
  (Hshown : skipDirEntry GOOS (fuse.lk_Name req) = false)
  (Hstat : k_lstat bk (kernel w) (filepath.Join [path d; fuse.lk_Name req])
           = (k1, inl st)) :
  exists resp' node w',
    Lookup bk GOOS d req resp w = (Returned (resp', Some node, nil_error), w')
    /\ lr_Attr resp' = statToFuseAttr st
    /\ lr_Node resp' = Attr_Inode (lr_Attr resp')
    /\ lr_AttrValid resp' = 1000000000%Z
    /\ lr_EntryValid resp' = 500000000%Z
    /\ node = (if os.IsDir (Attr_Mode (lr_Attr resp'))
               then DirNode (NewDir (path d) (fuse.lk_Name req) (fs d))
               else FileNode (NewFile (path d) (fuse.lk_Name req) (fs d)))
    /\ kernel w' = k1
    /\ events w'
       = events w
         ++ [CallLstat (filepath.Join [path d; fuse.lk_Name req]);
             Traced (NewLookupOp req
                       (filepath.Join [path d; fuse.lk_Name req]) false)].
Proof.
  rewrite (Lookup_run bk GOOS d req resp w Hshown). cbv zeta. rewrite Hstat.
  do 3 eexists. split; [reflexivity|]. cbn [lr_Attr lr_Node lr_AttrValid lr_EntryValid kernel].
  repeat split.
  change (Attr_Mode (statToFuseAttr st)) with (fileModeOfStat (syscall.Mode st)).
  now rewrite IsDir_fileModeOfStat.
Qed.

Lemma Lookup_answers_from_one_lstat_witness :
  exists resp' w',
    Lookup demo.backing "darwin" demo.dirA
      {| fuse.lk_Header := demo.header; fuse.lk_Name := "f" |}
      {| lr_Node := 0; lr_Attr := statToFuseAttr (demo.stat 0 0);
         lr_AttrValid := 0; lr_EntryValid := 0 |} demo.world
    = (Returned (resp', Some (FileNode (NewFile "/data/x/a" "f" demo.clue)),
                 nil_error), w')
    /\ lr_Node resp' = 3%Z.
Proof.
  destruct (Lookup_answers_from_one_lstat demo.backing "darwin" demo.dirA
              {| fuse.lk_Header := demo.header; fuse.lk_Name := "f" |}
              {| lr_Node := 0%Z; lr_Attr := statToFuseAttr (demo.stat 0 0);
                 lr_AttrValid := 0%Z; lr_EntryValid := 0%Z |}
              demo.world demo.disk (demo.stat 3 33188%Z) eq_refl eq_refl)
    as (resp' & node & w' & Hrun & Hattr & Hnode & _ & _ & Hkind & _).
  exists resp', w'. split.
  - rewrite Hrun, Hkind, Hattr. reflexivity.
  - rewrite Hnode, Hattr. reflexivity.
Defined.

(** X12: the trace record of Lookup and of Symlink is built when the defer
    statement is reached, before the stat: it says "not a directory" also
    when the call goes on to find a directory and returns a Dir node. *)
Theorem trace_record_is_built_before_the_stat
  {K : Type} (bk : Backing K) (GOOS : string) (d nd : Dir) (w : World K) :
  (forall req resp resp' err,
      fst (Lookup bk GOOS d req resp w) = Returned (resp', Some (DirNode nd), err) ->
      traces (events (snd (Lookup bk GOOS d req resp w)))
      = traces (events w)
        ++ [NewLookupOp req (filepath.Join [path d; fuse.lk_Name req]) false])
  /\ (forall req err,
      fst (Symlink bk d req w) = Returned (Some (DirNode nd), err) ->
      traces (events (snd (Symlink bk d req w)))
      = traces (events w)
        ++ [NewSymlinkOp req (filepath.Join [path d; fuse.sl_NewName req])
              (fuse.sl_Target req) false]).
Proof.
  split.
  - intros req resp resp' err H.
    rewrite Lookup_traces.
    now rewrite (Lookup_not_skipped _ _ _ _ _ _ _ _ _ H).
  - intros req err _. apply Symlink_traces.
Qed.

Lemma trace_record_is_built_before_the_stat_witness :
  fst (Symlink demo.backing demo.dirA (demo.symlink "tob" "/mnt/x/b") demo.world)
  = Returned (Some (DirNode (NewDir "/data/x/a" "tob" demo.clue)), nil_error)
  /\ traces (events (snd (Symlink demo.backing demo.dirA
                            (demo.symlink "tob" "/mnt/x/b") demo.world)))
     = [NewSymlinkOp (demo.symlink "tob" "/mnt/x/b") "/data/x/a/tob" "/mnt/x/b"
          false].
Proof.
  split; [reflexivity|].
  apply (trace_record_is_built_before_the_stat demo.backing "linux" demo.dirA
           (NewDir "/data/x/a" "tob" demo.clue) demo.world) with (err := nil_error).
  reflexivity.
Defined.

(** ** ReadDirAll: no filter off Darwin, and a failed enumeration *)

Lemma shown_all (GOOS : string) (names : list string) :
  GOOS <> "darwin" -> shown GOOS names = names.
Proof.
  intros Hne. unfold shown, skipDirEntry.
  destruct (String.eqb_spec GOOS "darwin") as [Heq|_]; [contradiction|].
  induction names as [|x names IH]; [reflexivity|].
  cbn [filter negb]. now f_equal.
Qed.

(** X13: on every platform but Darwin nothing is filtered: an open Directory
    whose enumeration succeeds lists every name of the backing directory,
    names that start with "._" included, then "." and "..". *)
Theorem ReadDirAll_lists_everything_off_Darwin
  {K : Type} (bk : Backing K) (GOOS : string) (d : Dir) (w : World K)
  (names : list string) (w1 : World K)
  (Hos : GOOS <> "darwin")
  (Hopen : isOpen d = true)
  (Hnames : Readdirnames bk (file d) 0%Z w = (Returned (names, nil_error), w1)) :
  exists ents w2,
    ReadDirAll bk GOOS d w = (Returned (ents, nil_error), w2)
    /\ map fuse.Name ents = names ++ ["."; ".."]
    /\ List.length ents = List.length names + 2.
Proof.
  destruct (ReadDirAll_open_run bk GOOS d w names w1 Hopen Hnames)
    as (es & dot & dotdot & w2 & Hr & Hm & Hd & Hdd & _).
  rewrite (shown_all GOOS names Hos) in Hm.
  exists (es ++ [dot; dotdot]), w2.
  split; [exact Hr|]. split.
  - rewrite map_app, Hm. cbn [map]. now rewrite Hd, Hdd.
  - rewrite length_app, <- (length_map fuse.Name es), Hm. reflexivity.
Qed.

Lemma ReadDirAll_lists_everything_off_Darwin_witness :
  exists ents w2,
    ReadDirAll demo.backing "linux" demo.openA demo.world
    = (Returned (ents, nil_error), w2)
    /\ map fuse.Name ents = ["f"; "._f"; "sub"; "."; ".."].
Proof.
  destruct (ReadDirAll_lists_everything_off_Darwin demo.backing "linux"
              demo.openA demo.world ["f"; "._f"; "sub"] _
              ltac:(discriminate) eq_refl eq_refl)
    as (ents & w2 & Hr & Hm & _).
  exists ents, w2. split; [exact Hr | exact Hm].
Defined.

(** X14: when the enumeration of an open Directory fails, with whatever
    error and however many names were read before it, ReadDirAll returns no
    entry and EIO: the names read so far are dropped and the error of the
    backing filesystem is not translated.  Nothing is statted; the trace
    record is still written. *)
Theorem ReadDirAll_enumeration_error_is_EIO
  {K : Type} (bk : Backing K) (GOOS : string) (d : Dir) (w : World K)
  (f : os.File) (k1 : K) (raw : list string) (err : error)
  (Hfile : file d = Some f)
  (Henum : k_getdents bk (kernel w) f = (k1, (raw, err)))
  (Hfailed : err <> nil_error) :
  ReadDirAll bk GOOS d w
  = (Returned ([], fuse.EIO),
     {| kernel := k1;
        events := events w
                  ++ [CallReaddirnames f 0%Z;
                      Traced (NewReadDirOp (path d) (Dir_ProcessInfo d))] |}).
Proof.
  apply is_nil_false in Hfailed.
  unfold ReadDirAll, isOpen. rewrite Hfile. cbn [negb].
  cbv [defer trace bind Readdirnames call ret]. rewrite Henum.
  cbn [kernel events]. rewrite Hfailed. cbn. now rewrite <- app_assoc.
Qed.

Lemma ReadDirAll_enumeration_error_is_EIO_witness :
  ReadDirAll faulty.backing "linux" demo.openA demo.world
  = (Returned ([], FuseErrno 5%Z),
     {| kernel := demo.disk;
        events :=
          [CallReaddirnames {| os.Fd := 2%Z; os.Name := "/data/x/a" |} 0%Z;
           Traced (NewReadDirOp "/data/x/a" noProcessInfo)] |}).
Proof.
  apply (ReadDirAll_enumeration_error_is_EIO faulty.backing "linux" demo.openA
           demo.world {| os.Fd := 2%Z; os.Name := "/data/x/a" |} demo.disk
           ["."; ".."; "f"]
           (demo.pathError "readdirent" "/data/x/a" syscall.EIO)
           eq_refl eq_refl).
  discriminate.
Defined.

(** ** Open and Release around the Handle *)

(** X15: Open works on a fresh Dir made from the receiver's parent, name and
    filesystem, and asks for the receiver's path to be opened with the flags
    of the request and, as permission bits, the low nine bits of those same
    flags.  When that succeeds the new Dir is returned with the Handle so
    obtained and the uid, gid and pid of the request, and the response
    carries its handle id; when it fails no Dir is returned, the response is
    left as it was and the error is the one of the open, not translated
    again.  The trace record follows in both cases. *)
Theorem Open_returns_a_fresh_Dir
  {K : Type} (bk : Backing K) (d : Dir) (req : fuse.OpenRequest)
  (resp : OpenResponse) (w w1 : World K) (h : Handle) (err : error)
  (Hopen : doOpen bk emptyHandle (path d) (fuse.op_Flags req)
             (Z.land (fuse.op_Flags req) 511) w
           = (Returned (h, err), w1)) :
  Open bk d req resp w
  = (Returned
       (if is_nil err
        then ({| or_Handle := handleID h |},
              Some {| Dir_Node := NewNode (parent d) (name d) (fs d);
                      Dir_Handle := h;
                      Dir_ProcessInfo :=
                        {| Uid := fuse.Uid (fuse.op_Header req);
                           Gid := fuse.Gid (fuse.op_Header req);
                           Pid := fuse.Pid (fuse.op_Header req) |} |},
              nil_error)
        else (resp, None, err)),
     {| kernel := kernel w1;
        events := events w1 ++ [Traced (NewOpenOp req (path d))] |}).
Proof.
  unfold Open. cbv [defer trace bind ret].
  change (Dir_Handle (NewDir (parent d) (name d) (fs d))) with emptyHandle.
  change (os.Perm (fuse.op_Flags req)) with (Z.land (fuse.op_Flags req) 511).
  rewrite Hopen. now destruct (is_nil err).
Qed.

Lemma Open_returns_a_fresh_Dir_witness :
  fst (Open demo.backing demo.dirA demo.open {| or_Handle := 0%Z |} demo.world)
  = Returned
      ({| or_Handle := 2%Z |},
       Some {| Dir_Node := NewNode "/data/x" "a" demo.clue;
               Dir_Handle :=
                 {| file := Some {| os.Fd := 2%Z; os.Name := "/data/x/a" |};
                    handleID := 2%Z |};
               Dir_ProcessInfo := {| Uid := 1000%Z; Gid := 1000%Z; Pid := 4242%Z |} |},
       nil_error).
Proof.
  rewrite (Open_returns_a_fresh_Dir demo.backing demo.dirA demo.open
             {| or_Handle := 0%Z |} demo.world _ _ nil_error eq_refl).
  reflexivity.
Defined.

(** X16: Release flushes only when the request carries the ReleaseFlush
    flag, always before the close, and drops what the flush returns: the
    result of Release is the result of the close alone, so a failed flush
    followed by a successful close is reported as success. *)
Theorem Release_reports_the_close_only
  {K : Type} (bk : Backing K) (d : Dir) (req : fuse.ReleaseRequest)
  (w : World K)
  (Hopen : isOpen d = true) :
  (Z.land (fuse.rl_ReleaseFlags req) fuse.ReleaseFlush <> 0%Z ->
   forall es w1 h ec w2,
     doSync bk d w = (Returned es, w1) ->
     doClose bk d w1 = (Returned (h, ec), w2) ->
     Release bk d req w
     = (Returned (withHandle d h, ec),
        {| kernel := kernel w2;
           events := events w2 ++ [Traced (NewReleaseOp req (path d))] |}))
  /\ (Z.land (fuse.rl_ReleaseFlags req) fuse.ReleaseFlush = 0%Z ->
      forall h ec w2,
        doClose bk d w = (Returned (h, ec), w2) ->
        Release bk d req w
        = (Returned (withHandle d h, ec),
           {| kernel := kernel w2;
              events := events w2 ++ [Traced (NewReleaseOp req (path d))] |})).
Proof.
  unfold Release. rewrite Hopen. cbn [negb].
  split.
  - intros Hflag es w1 h ec w2 Hs Hc.
    apply Z.eqb_neq in Hflag. rewrite Hflag. cbn [negb].
    cbv [defer trace bind ret]. now rewrite Hs, Hc.
  - intros Hflag h ec w2 Hc.
    apply Z.eqb_eq in Hflag. rewrite Hflag. cbn [negb].
    cbv [defer trace bind ret]. now rewrite Hc.
Qed.

Lemma Release_reports_the_close_only_witness :
  doSync faulty.backing demo.openA demo.world
  = (Returned (FuseErrno 5%Z),
     {| kernel := demo.disk;
        events := [CallSync {| os.Fd := 2%Z; os.Name := "/data/x/a" |}] |})
  /\ fst (Release faulty.backing demo.openA demo.release demo.world)
     = Returned (withHandle demo.openA {| file := None; handleID := 2%Z |},
                 nil_error).
Proof.
  split; [reflexivity|].
  destruct (Release_reports_the_close_only faulty.backing demo.openA
              demo.release demo.world eq_refl) as [Hflush _].
  rewrite (Hflush ltac:(discriminate) _ _ _ _ _ eq_refl eq_refl).
  reflexivity.
Defined.

(** ** What ReadDirAll asks of the backing filesystem *)

Section Footprint.

Context {K : Type} (bk : Backing K) (GOOS : string).

Lemma readEntries_footprint (d : Dir) names :
  forall result w,
  exists ents w',
    readEntries bk GOOS d names result w = (Returned (result ++ ents), w')
    /\ events w'
       = events w
         ++ map (fun n => CallLstat (filepath.Join [path d; n])) (shown GOOS names).
Proof.
  induction names as [|n names IH]; intros result w; cbn [readEntries].
  - exists [], w. now rewrite !app_nil_r.
  - unfold shown. cbn [filter].
    destruct (skipDirEntry GOOS n) eqn:Hs; cbn [negb].
    + apply IH.
    + destruct (getFuseDirent_run bk (filepath.Join [path d; n]) n w)
        as (de & k' & Hde & _).
      unfold bind at 1. rewrite Hde.
      destruct (IH (result ++ [de])
                  {| kernel := k';
                     events := events w
                               ++ [CallLstat (filepath.Join [path d; n])] |})
        as (ents & w' & Hr & He).
      exists (de :: ents), w'. split.
      * rewrite Hr. now rewrite <- app_assoc.
      * rewrite He. cbn [events map]. now rewrite <- app_assoc.
Qed.

End Footprint.

(** X17: the calls of a ReadDirAll whose enumeration succeeds, in order: one
    Readdirnames(0) on the Directory's descriptor; one stat for each name
    that the filter lets through, in the order of the enumeration, on the
    name joined to the directory's path (a suppressed name is not statted);
    one stat of the directory's own path for "."; and, only when the parent
    path is not empty, one stat of the parent path for "..".  The trace
    record comes last. *)
Theorem ReadDirAll_footprint
  {K : Type} (bk : Backing K) (GOOS : string) (d : Dir) (w : World K)
  (f : os.File) (k1 : K) (raw : list string)
  (Hfile : file d = Some f)
  (Henum : k_getdents bk (kernel w) f = (k1, (raw, nil_error))) :
  let names :=
    filter (fun e => negb (String.eqb e "." || String.eqb e "..")) raw in
  events (snd (ReadDirAll bk GOOS d w))
  = events w
    ++ [CallReaddirnames f 0%Z]
    ++ map (fun n => CallLstat (filepath.Join [path d; n]))
         (filter (fun n => negb (skipDirEntry GOOS n)) names)
    ++ [CallLstat (path d)]
    ++ (if (0 <? String.length (parent d))%nat then [CallLstat (parent d)] else [])
    ++ [Traced (NewReadDirOp (path d) (Dir_ProcessInfo d))].
Proof.
  cbv zeta. unfold ReadDirAll, isOpen. rewrite Hfile. cbn [negb].
  unfold defer, trace. unfold bind at 1.
  cbv [Readdirnames call ret]. unfold bind at 1. rewrite Henum.
  cbn [is_nil negb kernel events].
  unfold bind at 1.
  match goal with
  | |- context [readEntries bk GOOS d ?ns [] ?w0] =>
      destruct (readEntries_footprint bk GOOS d ns [] w0)
        as (ents & w2 & Hr & He)
  end.
  rewrite Hr. cbn [app].
  destruct (getFuseDirent_run bk (path d) "." w2) as (dot & k3 & Hdot & _).
  unfold bind at 1. rewrite Hdot.
  destruct (0 <? String.length (parent d))%nat.
  - destruct (getFuseDirent_run bk (parent d) ".."
                {| kernel := k3; events := events w2 ++ [CallLstat (path d)] |})
      as (dd & k4 & Hdd & _).
    unfold bind at 1. rewrite Hdd. cbv [bind]. cbn.
    rewrite He. cbn [events]. unfold shown.
    now rewrite <- !app_assoc.
  - cbv [bind]. cbn. rewrite He. cbn [events]. unfold shown.
    now rewrite <- !app_assoc.
Qed.

Lemma ReadDirAll_footprint_witness :
  events (snd (ReadDirAll demo.backing "darwin" demo.openA demo.world))
  = [CallReaddirnames {| os.Fd := 2%Z; os.Name := "/data/x/a" |} 0%Z;
     CallLstat "/data/x/a/f"; CallLstat "/data/x/a/sub";
     CallLstat "/data/x/a"; CallLstat "/data/x";
     Traced (NewReadDirOp "/data/x/a" noProcessInfo)].
Proof.
  apply (ReadDirAll_footprint demo.backing "darwin" demo.openA demo.world
           {| os.Fd := 2%Z; os.Name := "/data/x/a" |} demo.disk
           ["."; ".."; "f"; "._f"; "sub"] eq_refl eq_refl).
Defined.
